(** * Ironfish mining pool: work distribution and share validation

    A shallow embedding of
      - [ironfish/src/miningNew/poolShares.ts]       (MiningPoolShares),
      - [ironfish/src/miningNew/stratum/stratumClient.ts] (StratumClient, and
        MiningPool, which follows it in the same file),
    followed by the properties of the pool specification that concern them.

    Conventions of the embedding:
      - a JavaScript [number] that holds an integer (ids, randomness,
        millisecond timestamps) and a [bigint] are [Z];
      - a [Buffer] is a list of bytes;
      - a JavaScript [Map] is a [gmap]; block templates are objects that the
        pool stores by reference, so the pool carries an object store
        ([heap]) and [miningRequestBlocks] maps ids to references;
      - a method becomes a function from the state (and the clock reading
        where the method calls [new Date()]) to the new state and the list
        of effects it performed, in order; a method that may throw returns
        the completion as well;
      - an [async] method is cut at its [await]: one function for the part
        that runs until the promise is awaited, one for the continuation. *)

From Stdlib Require Import ZArith List Bool Ascii String Lia.
From Stdlib.Strings Require Import Byte.
From stdpp Require Import gmap strings list pretty.
Import ListNotations.

Local Open Scope Z_scope.

(** ** Node's Buffer *)
Module Buffer.

Definition t := list byte.

Definition byteZ (b : byte) : Z := Z.of_N (Byte.to_N b).

Definition ofZ (z : Z) : byte :=
  match Byte.of_N (Z.to_N (z mod 256)) with
  | Some b => b
  | None => x00
  end.

(** The unsigned big-endian integer a buffer stands for. *)
Fixpoint toBigIntAcc (acc : Z) (b : t) : Z :=
  match b with
  | [] => acc
  | x :: r => toBigIntAcc (acc * 256 + byteZ x) r
  end.

Definition toBigInt (b : t) : Z := toBigIntAcc 0 b.

(** [buf.toString('hex')] *)
Definition hexDigit (n : Z) : ascii :=
  match n with
  | 0 => "0" | 1 => "1" | 2 => "2" | 3 => "3" | 4 => "4" | 5 => "5"
  | 6 => "6" | 7 => "7" | 8 => "8" | 9 => "9" | 10 => "a" | 11 => "b"
  | 12 => "c" | 13 => "d" | 14 => "e" | _ => "f"
  end%char.

Fixpoint toString_hex (b : t) : string :=
  match b with
  | [] => EmptyString
  | x :: r =>
      String (hexDigit (byteZ x / 16))
        (String (hexDigit (byteZ x mod 16)) (toString_hex r))
  end.

(** [Buffer.from(s, 'hex')]: pairs of hexadecimal digits are decoded until
    the first pair that is not one; an odd last character is dropped. *)
Definition hexValue (c : ascii) : option Z :=
  let n := Z.of_N (N_of_ascii c) in
  if (48 <=? n) && (n <=? 57) then Some (n - 48)
  else if (97 <=? n) && (n <=? 102) then Some (n - 87)
  else if (65 <=? n) && (n <=? 70) then Some (n - 55)
  else None.

Fixpoint from_hex (s : string) : t :=
  match s with
  | String a (String b r) =>
      match hexValue a, hexValue b with
      | Some h, Some l => ofZ (h * 16 + l) :: from_hex r
      | _, _ => []
      end
  | _ => []
  end.

(** [buf.toString()], the UTF-8 decoding of the bytes, as the list of the
    UTF-16 code units of the resulting string.  An ill-formed sequence
    yields U+FFFD for each of its maximal subparts and the byte that broke
    it is decoded again. *)
Inductive decoder :=
| Idle
| Pending (cp : Z) (needed : nat) (lower upper : Z).

Definition replacement : Z := 65533.

Definition lead (b : Z) : list Z * decoder :=
  if b <=? 127 then ([b], Idle)
  else if (194 <=? b) && (b <=? 223) then
    ([], Pending (Z.land b 31) 1 128 191)
  else if (224 <=? b) && (b <=? 239) then
    ([], Pending (Z.land b 15) 2
           (if b =? 224 then 160 else 128) (if b =? 237 then 159 else 191))
  else if (240 <=? b) && (b <=? 244) then
    ([], Pending (Z.land b 7) 3
           (if b =? 240 then 144 else 128) (if b =? 244 then 143 else 191))
  else ([replacement], Idle).

Fixpoint utf8Decode (st : decoder) (bs : list Z) : list Z :=
  match bs with
  | [] => match st with Idle => [] | Pending _ _ _ _ => [replacement] end
  | b :: r =>
      match st with
      | Idle => let '(out, st') := lead b in out ++ utf8Decode st' r
      | Pending cp needed lower upper =>
          if (lower <=? b) && (b <=? upper) then
            let cp' := Z.lor (Z.shiftl cp 6) (Z.land b 63) in
            match needed with
            | S (S n) => utf8Decode (Pending cp' (S n) 128 191) r
            | _ => cp' :: utf8Decode Idle r
            end
          else
            let '(out, st') := lead b in
            replacement :: out ++ utf8Decode st' r
      end
  end.

Definition codeUnits (cp : Z) : list Z :=
  if cp <? 65536 then [cp]
  else [55296 + Z.shiftr (cp - 65536) 10; 56320 + Z.land (cp - 65536) 1023].

Definition toString (b : t) : list Z :=
  concat (map codeUnits (utf8Decode Idle (map byteZ b))).

(** [x < y] on two strings: the order of their code units. *)
Fixpoint stringLt (x y : list Z) : bool :=
  match x, y with
  | _, [] => false
  | [], _ :: _ => true
  | a :: x', b :: y' =>
      if a <? b then true else if b <? a then false else stringLt x' y'
  end.

(** [a < b] on two Buffers.  Neither operand is a primitive, so the
    operator converts both with [toString()] and compares the strings. *)
Definition lt (a b : t) : bool := stringLt (toString a) (toString b).

(** What a numeric comparison of the two byte strings would answer. *)
Definition numericLt (a b : t) : bool := toBigInt a <? toBigInt b.

End Buffer.

(** ** BigIntUtils *)
Module BigIntUtils.

Fixpoint bytesBE (size : nat) (v : Z) (acc : Buffer.t) : Buffer.t :=
  match size with
  | O => acc
  | S n => bytesBE n (v / 256) (Buffer.ofZ v :: acc)
  end.

(** Modelled from the spec: [BigIntUtils.toBytesBE] ([utils/bigint.ts]) is
    not part of the sources at hand; the specification has it serialise an
    unsigned integer as [size] big-endian bytes. *)
Definition toBytesBE (value : Z) (size : nat) : Buffer.t :=
  bytesBE size value [].

End BigIntUtils.

(** ** poolShares.ts: the share ledger *)
Module MiningPoolShares.

Record Share := {
  timestamp : Z;          (* [Date], as milliseconds since the epoch *)
  graffiti : string;
  miningRequestId : Z;
  randomness : Z
}.

(** The private array [shares]; [push] appends at the end. *)
Definition t := list Share.

Definition constructor : t := [].

Definition submitShare (now : Z) (s : t) (graffiti : string)
    (miningRequestId randomness : Z) : t :=
  s ++ [ {| timestamp := now; graffiti := graffiti;
            miningRequestId := miningRequestId; randomness := randomness |} ].

Definition hasShare (s : t) (g : string) (id r : Z) : bool :=
  match List.find (fun el => (miningRequestId el =? id) && (randomness el =? r)
                        && String.eqb (graffiti el) g) s with
  | Some _ => true
  | None => false
  end.

Definition totalShareCount (s : t) : Z := Z.of_nat (length s).

Definition graffitiShareCount (s : t) (g : string) : Z :=
  Z.of_nat (length (List.filter (fun share => String.eqb (graffiti share) g) s)).

Definition totalShareCountSince (s : t) (timeCutoff : Z) : Z :=
  Z.of_nat (length (List.filter (fun share => timeCutoff <? timestamp share) s)).

Definition graffitiShareCountSince (s : t) (g : string) (timeCutoff : Z) : Z :=
  Z.of_nat (length (List.filter (fun share => (timeCutoff <? timestamp share)
                                         && String.eqb (graffiti share) g) s)).

End MiningPoolShares.

(** ** Block templates *)

(** The header of a [SerializedBlockTemplate].  The pool reads and writes
    four of its fields; [rest] stands for the others (sequence, previous
    block hash, commitments, miner's fee), which it only passes on. *)
Module Header.
Record t := {
  graffiti : string;      (* hex *)
  randomness : Z;
  target : string;        (* hex *)
  timestamp : Z;
  rest : list byte
}.

Definition set_submission (h : t) (g : string) (r : Z) : t :=
  {| graffiti := g; randomness := r; target := target h;
     timestamp := timestamp h; rest := rest h |}.

Definition set_retarget (h : t) (tg : string) (ts : Z) : t :=
  {| graffiti := graffiti h; randomness := randomness h; target := tg;
     timestamp := ts; rest := rest h |}.
End Header.

Module BlockTemplate.
Record PreviousBlockInfo := { target : string; timestamp : Z }.

Record t := {
  header : Header.t;
  transactions : list (list byte);
  previousBlockInfo : option PreviousBlockInfo
}.

Definition set_header (b : t) (h : Header.t) : t :=
  {| header := h; transactions := transactions b;
     previousBlockInfo := previousBlockInfo b |}.
End BlockTemplate.

(** What the pool uses and does not define: the hash, the serialisation of
    a header for hashing ([mineableHeaderString], [miningNew/utils.ts]) and
    the consensus arithmetic of [primitives/target.ts]. *)
Class Primitives := {
  blake3 : Buffer.t -> Buffer.t;
  mineableHeaderString : Header.t -> Buffer.t;
  (** [new Target(bytes).toDifficulty()] *)
  Target_toDifficulty : Buffer.t -> Z;
  (** [Target.calculateDifficulty(time, previousBlockTimestamp, previousBlockDifficulty)] *)
  Target_calculateDifficulty : Z -> Z -> Z -> Z;
  (** [Target.fromDifficulty(d).asBigInt()] *)
  Target_fromDifficulty : Z -> Z
}.

(** How a call ends. *)
Inductive completion :=
| Normal
| Throw (error : string).

Inductive level := Debug | Info | Warn | Error.

(** ** pool.ts: the pool orchestrator *)
Module MiningPool.

Definition RECALCULATE_TARGET_TIMEOUT : Z := 10000.
Definition HASHRATE_TIME_CUTOFF_SECONDS : Z := 60.
Definition HASHRATE_TIME_CUTOFF_MILLISECONDS : Z :=
  HASHRATE_TIME_CUTOFF_SECONDS * 1000.

(** References to block template objects. *)
Definition loc := positive.

Inductive SetTimeoutToken := Token.

Record t := {
  shares : MiningPoolShares.t;
  started : bool;
  connectWarned : bool;
  connectTimeout : option SetTimeoutToken;
  nextMiningRequestId : Z;
  miningRequestBlocks : gmap Z loc;
  heap : gmap loc BlockTemplate.t;
  difficulty : Z;
  target : Buffer.t;
  currentHeadTimestamp : option Z;
  currentHeadDifficulty : option Z;
  recalculateTargetInterval : option SetTimeoutToken
}.

(** What the pool does to its collaborators, in the order it does it.  A
    block template handed to a collaborator is recorded as it is at the
    time of the call. *)
Inductive effect :=
| Log (l : level) (message : string)
| StratumStart
| StratumStop
| StratumNewWork (miningRequestId : Z) (block : BlockTemplate.t)
    (headDifficulty headTimestamp : Z)
| StratumWaitForWork
| HashRateStart
| HashRateStop
| RpcOnCloseOn
| RpcOnCloseOff
| RpcTryConnect
| RpcClose
| RpcSubmitBlock (block : BlockTemplate.t)
| RpcBlockTemplateStream
| SetTimeout (ms : Z)
| ClearTimeout
| SetInterval (ms : Z)
| ClearInterval
| StopResolve.

Definition set_shares (p : t) (s : MiningPoolShares.t) : t :=
  {| shares := s; started := started p; connectWarned := connectWarned p;
     connectTimeout := connectTimeout p;
     nextMiningRequestId := nextMiningRequestId p;
     miningRequestBlocks := miningRequestBlocks p; heap := heap p;
     difficulty := difficulty p; target := target p;
     currentHeadTimestamp := currentHeadTimestamp p;
     currentHeadDifficulty := currentHeadDifficulty p;
     recalculateTargetInterval := recalculateTargetInterval p |}.

Definition set_connection (p : t) (st w : bool) (tm : option SetTimeoutToken) : t :=
  {| shares := shares p; started := st; connectWarned := w;
     connectTimeout := tm;
     nextMiningRequestId := nextMiningRequestId p;
     miningRequestBlocks := miningRequestBlocks p; heap := heap p;
     difficulty := difficulty p; target := target p;
     currentHeadTimestamp := currentHeadTimestamp p;
     currentHeadDifficulty := currentHeadDifficulty p;
     recalculateTargetInterval := recalculateTargetInterval p |}.

Definition set_jobs (p : t) (next : Z) (blocks : gmap Z loc) : t :=
  {| shares := shares p; started := started p; connectWarned := connectWarned p;
     connectTimeout := connectTimeout p;
     nextMiningRequestId := next;
     miningRequestBlocks := blocks; heap := heap p;
     difficulty := difficulty p; target := target p;
     currentHeadTimestamp := currentHeadTimestamp p;
     currentHeadDifficulty := currentHeadDifficulty p;
     recalculateTargetInterval := recalculateTargetInterval p |}.

(** Writing a field of the object at [l]. *)
Definition store (p : t) (l : loc) (b : BlockTemplate.t) : t :=
  {| shares := shares p; started := started p; connectWarned := connectWarned p;
     connectTimeout := connectTimeout p;
     nextMiningRequestId := nextMiningRequestId p;
     miningRequestBlocks := miningRequestBlocks p; heap := <[l := b]> (heap p);
     difficulty := difficulty p; target := target p;
     currentHeadTimestamp := currentHeadTimestamp p;
     currentHeadDifficulty := currentHeadDifficulty p;
     recalculateTargetInterval := recalculateTargetInterval p |}.

Definition set_head (p : t) (ts d : option Z) : t :=
  {| shares := shares p; started := started p; connectWarned := connectWarned p;
     connectTimeout := connectTimeout p;
     nextMiningRequestId := nextMiningRequestId p;
     miningRequestBlocks := miningRequestBlocks p; heap := heap p;
     difficulty := difficulty p; target := target p;
     currentHeadTimestamp := ts;
     currentHeadDifficulty := d;
     recalculateTargetInterval := recalculateTargetInterval p |}.

Definition set_interval (p : t) (i : option SetTimeoutToken) : t :=
  {| shares := shares p; started := started p; connectWarned := connectWarned p;
     connectTimeout := connectTimeout p;
     nextMiningRequestId := nextMiningRequestId p;
     miningRequestBlocks := miningRequestBlocks p; heap := heap p;
     difficulty := difficulty p; target := target p;
     currentHeadTimestamp := currentHeadTimestamp p;
     currentHeadDifficulty := currentHeadDifficulty p;
     recalculateTargetInterval := i |}.

(** The object a mining request id refers to: [miningRequestBlocks.get(id)]. *)
Definition getBlock (p : t) (id : Z) : option (loc * BlockTemplate.t) :=
  match miningRequestBlocks p !! id with
  | Some l => match heap p !! l with
              | Some b => Some (l, b)
              | None => None
              end
  | None => None
  end.

(** [Number(x)] of a [bigint]; exact up to [2^53], which no hashrate
    reaches (lemma [hashrate_is_safe_integer] below). *)
Definition Number (x : Z) : Z := x.

Definition constructor : t :=
  let difficulty := 1850000 * 2 in
  let basePoolTarget := Z.quot (2 ^ 256) difficulty in
  {| shares := MiningPoolShares.constructor;
     started := false; connectWarned := false; connectTimeout := None;
     nextMiningRequestId := 0;
     miningRequestBlocks := ∅; heap := ∅;
     difficulty := difficulty;
     target := BigIntUtils.toBytesBE basePoolTarget 32;
     currentHeadTimestamp := None; currentHeadDifficulty := None;
     recalculateTargetInterval := None |}.

Definition getTarget (p : t) : string := Buffer.toString_hex (target p).

(** [hashrate()] and [graffitiHashrate(graffiti)]; [now] is what
    [new Date().getTime()] returns.  The division is that of [bigint],
    which truncates. *)
Definition hashrate (p : t) (now : Z) : Z :=
  let timeCutoff := now - HASHRATE_TIME_CUTOFF_MILLISECONDS in
  let totalShares := MiningPoolShares.totalShareCountSince (shares p) timeCutoff in
  Number (Z.quot (totalShares * difficulty p) HASHRATE_TIME_CUTOFF_SECONDS).

Definition graffitiHashrate (p : t) (now : Z) (graffiti : string) : Z :=
  let timeCutoff := now - HASHRATE_TIME_CUTOFF_MILLISECONDS in
  let totalShares :=
    MiningPoolShares.graffitiShareCountSince (shares p) graffiti timeCutoff in
  Number (Z.quot (totalShares * difficulty p) HASHRATE_TIME_CUTOFF_SECONDS).

Definition stopCalculateTargetInterval (p : t) : list effect :=
  match recalculateTargetInterval p with
  | Some _ => [ClearInterval]
  | None => []
  end.

Definition restartCalculateTargetInterval (p : t) : t * list effect :=
  (set_interval p (Some Token),
   stopCalculateTargetInterval p ++ [SetInterval RECALCULATE_TARGET_TIMEOUT]).

Definition stop (p : t) : t * list effect :=
  if negb (started p) then (p, [])
  else (set_connection p false (connectWarned p) (connectTimeout p),
        [Log Debug "Stopping pool, goodbye"; RpcOnCloseOff; RpcClose;
         StratumStop; HashRateStop]
        ++ stopCalculateTargetInterval p
        ++ [StopResolve]
        ++ match connectTimeout p with
           | Some _ => [ClearTimeout]
           | None => []
           end).

(** [startConnectingRpc]: the call starts [rpc.tryConnect()]; the rest
    runs when that promise settles with [connected]. *)
Definition startConnectingRpc_call (p : t) : list effect := [RpcTryConnect].

Definition start (p : t) : t * list effect :=
  if started p then (p, [])
  else
    let p := set_connection p true (connectWarned p) (connectTimeout p) in
    (p, [HashRateStart; Log Info "Starting stratum server..."; StratumStart;
         Log Info "Connecting to node..."; RpcOnCloseOn]
        ++ startConnectingRpc_call p).

Definition startConnectingRpc_resume (p : t) (connected : bool) : t * list effect :=
  if negb (started p) then (p, [])
  else if negb connected then
    (set_connection p (started p) true (Some Token),
     (if negb (connectWarned p)
      then [Log Warn "Failed to connect to node, retrying..."]
      else [])
     ++ [SetTimeout 5000])
  else
    (set_connection p (started p) false (connectTimeout p),
     [Log Info "Successfully connected to node";
      Log Info "Listening to node for new blocks";
      RpcBlockTemplateStream]).

Definition onDisconnectRpc (p : t) : list effect :=
  [StratumWaitForWork;
   Log Info "Disconnected from node unexpectedly. Reconnecting."]
  ++ startConnectingRpc_call p.

Definition distributeNewBlock (p : t) (l : loc) (newBlock : BlockTemplate.t)
    : t * list effect * completion :=
  match currentHeadTimestamp p with
  | None => (p, [], Throw "Assert.isNotNull")
  | Some headTimestamp =>
      match currentHeadDifficulty p with
      | None => (p, [], Throw "Assert.isNotNull")
      | Some headDifficulty =>
          let miningRequestId := nextMiningRequestId p in
          (set_jobs p (miningRequestId + 1)
             (<[miningRequestId := l]> (miningRequestBlocks p)),
           [StratumNewWork miningRequestId newBlock headDifficulty headTimestamp],
           Normal)
      end
  end.

(** Counting what a call did. *)
Definition isNodeSubmission (e : effect) : bool :=
  match e with
  | RpcSubmitBlock _ => true
  | _ => false
  end.

Definition isFailureWarning (e : effect) : bool :=
  match e with
  | Log Warn message =>
      String.eqb message "Failed to connect to node, retrying..."
  | _ => false
  end.

Definition isRetryTimer (ms : Z) (e : effect) : bool :=
  match e with
  | SetTimeout ms' => ms' =? ms
  | _ => false
  end.

Definition isTimer (e : effect) : bool :=
  match e with
  | SetTimeout _ => true
  | _ => false
  end.

Definition isConnectedTransition (e : effect) : bool :=
  match e with
  | Log Info message => String.eqb message "Successfully connected to node"
  | _ => false
  end.

Definition isConnectAttempt (e : effect) : bool :=
  match e with
  | RpcTryConnect => true
  | _ => false
  end.

Definition count (f : effect -> bool) (es : list effect) : nat :=
  length (List.filter f es).

(** A run of the connect loop: the attempt in flight fails, its retry timer
    fires and starts the next attempt, [failures] times over; then the
    attempt in flight succeeds. *)
Fixpoint connectStreak (failures : nat) (p : t) : t * list effect :=
  match failures with
  | O => startConnectingRpc_resume p true
  | S n =>
      let '(p1, e1) := startConnectingRpc_resume p false in
      let e2 := startConnectingRpc_call p1 in
      let '(p2, e3) := connectStreak n p1 in
      (p2, e1 ++ e2 ++ e3)
  end.

(** Every id handed out so far refers to a stored job. *)
Definition jobsStored (p : t) : Prop :=
  0 <= nextMiningRequestId p
  /\ forall id, 0 <= id < nextMiningRequestId p -> is_Some (getBlock p id).

(** The pool target and difficulty are those of the constructor. *)
Definition targetFixed (p : t) : Prop :=
  difficulty p = 3700000 /\ target p = target constructor.

Section WithPrimitives.
Context `{Primitives}.

(** [submitWork], up to the point where it awaits [rpc.submitBlock] (or
    returns without calling it).  [now] is the clock reading taken by
    [submitShare].  The two hashrate and share-percentage lines are
    logged; their text has no effect on the pool. *)
Definition submitWork (p : t) (now : Z) (client : Z)
    (miningRequestId randomness : Z) (graffiti : Buffer.t) : t * list effect :=
  if negb (miningRequestId =? nextMiningRequestId p - 1) then
    (p, [Log Debug "Stale share submitted"])
  else
    match getBlock p miningRequestId with
    | None => (p, [Log Warn "Client work for invalid mining request"])
    | Some (l, blockTemplate) =>
        let graffitiHex := Buffer.toString_hex graffiti in
        let blockTemplate :=
          BlockTemplate.set_header blockTemplate
            (Header.set_submission (BlockTemplate.header blockTemplate)
               graffitiHex randomness) in
        let p := store p l blockTemplate in
        let headerBytes := mineableHeaderString (BlockTemplate.header blockTemplate) in
        let hashedHeader := blake3 headerBytes in
        let '(p, e1) :=
          if Buffer.lt hashedHeader (target p) then
            (set_shares p
               (MiningPoolShares.submitShare now (shares p) graffitiHex
                  miningRequestId randomness),
             [Log Debug "Valid pool share submitted";
              Log Debug "Hashrate, miner, total";
              Log Debug "Shares, miner, total"])
          else (p, []) in
        let e2 :=
          if Buffer.lt hashedHeader
               (Buffer.from_hex (Header.target (BlockTemplate.header blockTemplate)))
          then [Log Debug "Valid block, submitting to node";
                RpcSubmitBlock blockTemplate]
          else [] in
        (p, e1 ++ e2)
    end.

(** The continuation of [submitWork] once the node has answered. *)
Definition submitWork_resume (added : bool) : list effect :=
  if added then [Log Info "Block submitted successfully!"]
  else [Log Info "Block was rejected"].

(** One tick of the retarget timer; [now] is [new Date()]. *)
Definition recalculateTarget (p : t) (now : Z) : t * list effect * completion :=
  match currentHeadTimestamp p with
  | None => (p, [], Throw "Assert.isNotNull")
  | Some headTimestamp =>
      match currentHeadDifficulty p with
      | None => (p, [], Throw "Assert.isNotNull")
      | Some headDifficulty =>
          match getBlock p (nextMiningRequestId p - 1) with
          | None => (p, [], Throw "Assert.isNotUndefined")
          | Some (l, latestBlock) =>
              let newTime := now in
              let newTarget :=
                Target_fromDifficulty
                  (Target_calculateDifficulty newTime headTimestamp headDifficulty) in
              let latestBlock :=
                BlockTemplate.set_header latestBlock
                  (Header.set_retarget (BlockTemplate.header latestBlock)
                     (Buffer.toString_hex (BigIntUtils.toBytesBE newTarget 32))
                     newTime) in
              let p := store p l latestBlock in
              distributeNewBlock p l latestBlock
          end
      end
  end.

(** The body of the loop of [processNewBlocks] for one template of the
    stream.  Each template the stream yields is a new object. *)
Definition processNewBlock (p : t) (payload : BlockTemplate.t)
    : t * list effect * completion :=
  match BlockTemplate.previousBlockInfo payload with
  | None => (p, [], Throw "Assert.isNotUndefined")
  | Some previousBlockInfo =>
      let l := fresh (dom (heap p)) in
      let p := store p l payload in
      let '(p, e1) := restartCalculateTargetInterval p in
      let currentHeadTarget :=
        Buffer.from_hex (BlockTemplate.target previousBlockInfo) in
      let p := set_head p (Some (BlockTemplate.timestamp previousBlockInfo))
                 (Some (Target_toDifficulty currentHeadTarget)) in
      let '(p, e2, c) := distributeNewBlock p l payload in
      (p, e1 ++ e2, c)
  end.

(** The hash [submitWork] computes for a submission against the job [b]. *)
Definition submissionHash (b : BlockTemplate.t) (graffiti : Buffer.t)
    (randomness : Z) : Buffer.t :=
  blake3 (mineableHeaderString
            (Header.set_submission (BlockTemplate.header b)
               (Buffer.toString_hex graffiti) randomness)).

(** The states the pool goes through, from its construction on. *)
Inductive reachable : t -> Prop :=
| reach_constructor : reachable constructor
| reach_start p : reachable p -> reachable (fst (start p))
| reach_stop p : reachable p -> reachable (fst (stop p))
| reach_connect p connected :
    reachable p -> reachable (fst (startConnectingRpc_resume p connected))
| reach_block p payload :
    reachable p -> reachable (fst (fst (processNewBlock p payload)))
| reach_retarget p now :
    reachable p -> reachable (fst (fst (recalculateTarget p now)))
| reach_submit p now client miningRequestId randomness graffiti :
    reachable p ->
    reachable (fst (submitWork p now client miningRequestId randomness graffiti)).

(** One event in the life of the pool. *)
Inductive step : t -> t -> Prop :=
| step_start p : step p (fst (start p))
| step_stop p : step p (fst (stop p))
| step_connect p connected : step p (fst (startConnectingRpc_resume p connected))
| step_block p payload : step p (fst (fst (processNewBlock p payload)))
| step_retarget p now : step p (fst (fst (recalculateTarget p now)))
| step_submit p now client miningRequestId randomness graffiti :
    step p (fst (submitWork p now client miningRequestId randomness graffiti)).

(** The ids stored are those handed out, their objects exist, and the head
    is known as soon as a job has been handed out. *)
Definition wellFormed (p : t) : Prop :=
  0 <= nextMiningRequestId p
  /\ (forall id, is_Some (miningRequestBlocks p !! id) ->
                 0 <= id < nextMiningRequestId p)
  /\ (forall id, 0 <= id < nextMiningRequestId p -> is_Some (getBlock p id))
  /\ (0 < nextMiningRequestId p ->
      is_Some (currentHeadTimestamp p) /\ is_Some (currentHeadDifficulty p)).

Definition isInvalidRequestWarning (e : effect) : bool :=
  match e with
  | Log Warn message =>
      String.eqb message "Client work for invalid mining request"
  | _ => false
  end.

End WithPrimitives.

End MiningPool.

(** ** JSON values, as [JSON.parse] returns them *)
Module JSON.

Local Unset Elimination Schemes.

(** A number is an integer here: the ids of the protocol are, and a number
    that is not one is never a key of [requestsSent]. *)
Inductive t :=
| JNull
| JBool (b : bool)
| JNumber (n : Z)
| JString (s : string)
| JArray (items : list t)
| JObject (fields : list (string * t)).
Local Set Elimination Schemes.

Fixpoint assoc (key : string) (fields : list (string * t)) : option t :=
  match fields with
  | [] => None
  | (k, v) :: r => if String.eqb k key then Some v else assoc key r
  end.

(** [v.key] for a value [v] that is neither [null] nor [undefined], and a
    key that is no built-in property; [None] is [undefined]. *)
Definition prop (v : t) (key : string) : option t :=
  match v with
  | JObject fields => assoc key fields
  | _ => None
  end.

(** [v != null]: neither [undefined] nor [null]. *)
Definition notNullish (v : option t) : bool :=
  match v with
  | None | Some JNull => false
  | Some _ => true
  end.

Definition indexKey (i : nat) : string :=
  match i with
  | O => "0"
  | _ => "1"
  end.

(** [v[i]] for [i] in 0, 1; the outer [None] is the [TypeError] of an
    access on [undefined] or [null]. *)
Definition index (v : option t) (i : nat) : option (option t) :=
  match v with
  | None | Some JNull => None
  | Some (JArray items) => Some (nth_error items i)
  | Some (JString str) =>
      Some (match String.get i str with
            | Some ch => Some (JString (String ch EmptyString))
            | None => None
            end)
  | Some (JObject fields) => Some (assoc (indexKey i) fields)
  | Some _ => Some None
  end.

End JSON.

(** What the client takes from the platform: [JSON.parse] on a line (given
    as its code units; [None] when it throws a [SyntaxError]) and
    [Buffer.from(v, 'hex')] for an array or an object [v] ([None] when it
    throws a [TypeError]). *)
Class Platform := {
  JSON_parse : list Z -> option JSON.t;
  Buffer_from_object : JSON.t -> option Buffer.t
}.

(** ** stratumClient.ts: the worker session *)
Module StratumClient.

Import JSON.

Inductive SetTimeoutToken := Token.

Record StratumRequest := {
  id : Z;
  method : string;
  params : JSON.t
}.

Record t := {
  host : string;
  port : Z;
  graffiti : Buffer.t;
  started : bool;
  connected : bool;
  connectWarned : bool;
  connectTimeout : option SetTimeoutToken;
  requestsSent : gmap Z string;
  nextMessageId : Z
}.

Inductive effect :=
| Log (l : level) (message : string)
| SocketOn (event : string)
| SocketOff (event : string)
| SocketConnect (port : Z) (host : string)
| SocketEnd
| SocketWrite (message : StratumRequest)
| SetTimeout (ms : Z)
| MinerSetTarget (target : option JSON.t)
| MinerNewWork (miningRequestId header : option JSON.t)
| MinerWaitForWork
| MinerSetGraffiti (graffiti : Buffer.t).

Definition constructor (host : string) (port : Z) (graffiti : Buffer.t) : t :=
  {| host := host; port := port; graffiti := graffiti;
     started := false; connected := false; connectWarned := false;
     connectTimeout := None; requestsSent := ∅; nextMessageId := 0 |}.

Definition set_started (c : t) (b : bool) : t :=
  {| host := host c; port := port c; graffiti := graffiti c;
     started := b; connected := connected c;
     connectWarned := connectWarned c; connectTimeout := connectTimeout c;
     requestsSent := requestsSent c; nextMessageId := nextMessageId c |}.

Definition set_connected (c : t) (b : bool) : t :=
  {| host := host c; port := port c; graffiti := graffiti c;
     started := started c; connected := b;
     connectWarned := connectWarned c; connectTimeout := connectTimeout c;
     requestsSent := requestsSent c; nextMessageId := nextMessageId c |}.

Definition set_connectWarned (c : t) (b : bool) : t :=
  {| host := host c; port := port c; graffiti := graffiti c;
     started := started c; connected := connected c;
     connectWarned := b; connectTimeout := connectTimeout c;
     requestsSent := requestsSent c; nextMessageId := nextMessageId c |}.

Definition set_connectTimeout (c : t) (tm : option SetTimeoutToken) : t :=
  {| host := host c; port := port c; graffiti := graffiti c;
     started := started c; connected := connected c;
     connectWarned := connectWarned c; connectTimeout := tm;
     requestsSent := requestsSent c; nextMessageId := nextMessageId c |}.

Definition set_graffiti (c : t) (g : Buffer.t) : t :=
  {| host := host c; port := port c; graffiti := g;
     started := started c; connected := connected c;
     connectWarned := connectWarned c; connectTimeout := connectTimeout c;
     requestsSent := requestsSent c; nextMessageId := nextMessageId c |}.

Definition set_requestsSent (c : t) (m : gmap Z string) : t :=
  {| host := host c; port := port c; graffiti := graffiti c;
     started := started c; connected := connected c;
     connectWarned := connectWarned c; connectTimeout := connectTimeout c;
     requestsSent := m; nextMessageId := nextMessageId c |}.

Definition set_nextMessageId (c : t) (n : Z) : t :=
  {| host := host c; port := port c; graffiti := graffiti c;
     started := started c; connected := connected c;
     connectWarned := connectWarned c; connectTimeout := connectTimeout c;
     requestsSent := requestsSent c; nextMessageId := n |}.

(** [connectSocket(socket, host, port)], the part that runs at the call:
    two listeners are registered and the connection is asked for.  They are
    removed when the promise settles. *)
Definition connectSocket (c : t) : list effect :=
  [SocketOn "error"; SocketOn "connect"; SocketConnect (port c) (host c)].

Definition connectSocket_settled : list effect :=
  [SocketOff "connect"; SocketOff "error"].

Definition send (c : t) (message : StratumRequest) : t * list effect :=
  if negb (connected c) then (c, [])
  else (set_requestsSent c (<[id message := method message]> (requestsSent c)),
        [SocketWrite message]).

Definition subscribe (c : t) (graffiti : Buffer.t) : t * list effect :=
  let message := {| id := nextMessageId c; method := "mining.subscribe";
                    params := JString (Buffer.toString_hex graffiti) |} in
  send (set_nextMessageId c (nextMessageId c + 1)) message.

Definition submit (c : t) (miningRequestId randomness : Z) (graffiti : Buffer.t)
    : t * list effect :=
  let message := {| id := nextMessageId c; method := "mining.submit";
                    params := JArray [JNumber miningRequestId; JNumber randomness;
                                      JString (Buffer.toString_hex graffiti)] |} in
  send (set_nextMessageId c (nextMessageId c + 1)) message.

Definition onConnect (c : t) : t * list effect :=
  let c := set_connected c true in
  let '(c', e) := subscribe c (graffiti c) in
  (c', [SocketOn "error"; SocketOn "close";
        Log Info "Successfully connected to pool";
        Log Info "Listening to pool for new work"] ++ e).

(** [startConnecting]: the call runs [connectSocket]; the rest runs when
    the promise has settled, [connected] telling how. *)
Definition startConnecting_call (c : t) : list effect := connectSocket c.

Definition startConnecting_resume (c : t) (connected : bool) : t * list effect :=
  if negb (started c) then (c, connectSocket_settled)
  else if negb connected then
    (set_connectTimeout (set_connectWarned c true) (Some Token),
     connectSocket_settled
     ++ (if negb (connectWarned c)
         then [Log Warn "Failed to connect to pool, retrying..."]
         else [])
     ++ [SetTimeout 5000])
  else
    let '(c', e) := onConnect (set_connectWarned c false) in
    (c', connectSocket_settled ++ e).

Definition start (c : t) : t * list effect :=
  if started c then (c, [])
  else
    let c := set_started c true in
    (c, [Log Info "Connecting to pool..."] ++ startConnecting_call c).

Definition stop (c : t) : t * list effect := (c, [SocketEnd]).

Definition onDisconnect (c : t) : t * list effect :=
  let c := set_connected c false in
  (c, [SocketOff "error"; SocketOff "close"; MinerWaitForWork;
       Log Info "Disconnected from pool unexpectedly. Reconnecting."]
      ++ startConnecting_call c).

Definition onError (c : t) : list effect := [Log Error "Stratum Error"].

Definition isFailureWarning (e : effect) : bool :=
  match e with
  | Log Warn message =>
      String.eqb message "Failed to connect to pool, retrying..."
  | _ => false
  end.

Definition isRetryTimer (ms : Z) (e : effect) : bool :=
  match e with
  | SetTimeout ms' => ms' =? ms
  | _ => false
  end.

Definition isTimer (e : effect) : bool :=
  match e with
  | SetTimeout _ => true
  | _ => false
  end.

Definition isConnectedTransition (e : effect) : bool :=
  match e with
  | Log Info message => String.eqb message "Successfully connected to pool"
  | _ => false
  end.

Definition isConnectAttempt (e : effect) : bool :=
  match e with
  | SocketConnect _ _ => true
  | _ => false
  end.

Definition count (f : effect -> bool) (es : list effect) : nat :=
  length (List.filter f es).

(** A run of the connect loop: the attempt in flight fails, its retry timer
    fires and starts the next attempt, [failures] times over; then the
    attempt in flight succeeds. *)
Fixpoint connectStreak (failures : nat) (c : t) : t * list effect :=
  match failures with
  | O => startConnecting_resume c true
  | S n =>
      let '(c1, e1) := startConnecting_resume c false in
      let e2 := startConnecting_call c1 in
      let '(c2, e3) := connectStreak n c1 in
      (c2, e1 ++ e2 ++ e3)
  end.

(** The effects that reach the socket or the timers. *)
Definition touchesConnection (e : effect) : bool :=
  match e with
  | SocketOn _ | SocketOff _ | SocketConnect _ _ | SocketEnd | SocketWrite _
  | SetTimeout _ => true
  | _ => false
  end.

Definition isWrite (e : effect) : bool :=
  match e with
  | SocketWrite _ => true
  | _ => false
  end.

(** [s.trim()] and [s.split('\n')] on the code units of a string. *)
Definition isWhiteSpace (c : Z) : bool :=
  ((9 <=? c) && (c <=? 13)) || (c =? 32) || (c =? 160) || (c =? 5760)
  || ((8192 <=? c) && (c <=? 8202)) || (c =? 8232) || (c =? 8233)
  || (c =? 8239) || (c =? 8287) || (c =? 12288) || (c =? 65279).

Fixpoint trimStart (s : list Z) : list Z :=
  match s with
  | [] => []
  | ch :: r => if isWhiteSpace ch then trimStart r else s
  end.

Definition trim (s : list Z) : list Z := rev (trimStart (rev (trimStart s))).

Fixpoint split (sep : Z) (s : list Z) : list (list Z) :=
  match s with
  | [] => [[]]
  | ch :: r =>
      if ch =? sep then [] :: split sep r
      else match split sep r with
           | piece :: pieces => (ch :: piece) :: pieces
           | [] => [[ch]]
           end
  end.

(** How the body of the loop of [onData] ends for one message. *)
Inductive flow :=
| Next                       (* on to the following line *)
| Return                     (* [return]: [onData] is left *)
| Raise (error : string).    (* an exception leaves [onData] *)

Section WithPlatform.
Context `{Platform}.

(** [Buffer.from(v, 'hex')] *)
Definition Buffer_from (v : option JSON.t) : option Buffer.t :=
  match v with
  | Some (JString str) => Some (Buffer.from_hex str)
  | Some (JArray items) => Buffer_from_object (JArray items)
  | Some (JObject fields) => Buffer_from_object (JObject fields)
  | _ => None
  end.

(** The body of the loop of [onData], for a line that [JSON.parse] has
    turned into [payload]. *)
Definition onPayload (c : t) (payload : JSON.t) : t * list effect * flow :=
  match payload with
  | JNull => (c, [], Raise "TypeError")
  | _ =>
      if notNullish (prop payload "method") then
        match prop payload "method" with
        | Some (JString method) =>
            if String.eqb method "mining.set_target" then
              match index (prop payload "params") 0 with
              | Some target =>
                  (c, [Log Info "set_target received"; MinerSetTarget target], Next)
              | None => (c, [Log Info "set_target received"], Raise "TypeError")
              end
            else if String.eqb method "mining.notify" then
              match index (prop payload "params") 0,
                    index (prop payload "params") 1 with
              | Some a, Some b =>
                  (c, [Log Info "mining notify received"; MinerNewWork a b], Next)
              | _, _ => (c, [Log Info "mining notify received"], Raise "TypeError")
              end
            else if String.eqb method "mining.wait_for_work" then
              (c, [Log Info "wait_for_work received"; MinerWaitForWork], Next)
            else (c, [Log Info "unrecognized method"], Next)
        | _ => (c, [Log Info "unrecognized method"], Next)
        end
      else if notNullish (prop payload "id") then
        let responseType :=
          match prop payload "id" with
          | Some (JNumber n) => requestsSent c !! n
          | _ => None
          end in
        match responseType with
        | None => (c, [Log Info "unrecognized response received"], Return)
        | Some responseType =>
            if String.eqb responseType "mining.subscribe" then
              match Buffer_from (prop payload "result") with
              | Some g => (set_graffiti c g, [MinerSetGraffiti g], Next)
              | None => (c, [], Raise "TypeError")
              end
            else (c, [Log Info "unrecognized response"], Next)
        end
      else (c, [Log Info "unrecognized message received"], Next)
  end.

(** The loop of [onData] over the lines of the chunk; [Next] when it has
    run through them all. *)
Fixpoint onLines (c : t) (splitData : list (list Z)) : t * list effect * flow :=
  match splitData with
  | [] => (c, [], Next)
  | dataString :: r =>
      match JSON_parse dataString with
      | None => (c, [], Raise "SyntaxError")
      | Some payload =>
          match onPayload c payload with
          | (c', e, Next) =>
              let '(c'', e', k) := onLines c' r in (c'', e ++ e', k)
          | (c', e, Return) => (c', e, Return)
          | (c', e, Raise error) => (c', e, Raise error)
          end
      end
  end.

Definition completionOf (k : flow) : completion :=
  match k with
  | Next | Return => Normal
  | Raise error => Throw error
  end.

Definition onData (c : t) (data : Buffer.t) : t * list effect * completion :=
  let '(c', e, k) := onLines c (split 10 (trim (Buffer.toString data))) in
  (c', e, completionOf k).

(** The messages the specification calls unrecognized or malformed, for a
    parsed value [payload] other than [null]. *)
Definition isKnownMethod (method : option JSON.t) : bool :=
  match method with
  | Some (JString m) =>
      String.eqb m "mining.set_target" || String.eqb m "mining.notify"
      || String.eqb m "mining.wait_for_work"
  | _ => false
  end.

Definition notNull (payload : JSON.t) : bool :=
  match payload with
  | JNull => false
  | _ => true
  end.

Definition unrecognizedMethod (payload : JSON.t) : bool :=
  notNull payload && notNullish (prop payload "method")
  && negb (isKnownMethod (prop payload "method")).

Definition malformedEnvelope (payload : JSON.t) : bool :=
  notNull payload && negb (notNullish (prop payload "method"))
  && negb (notNullish (prop payload "id")).

(** A response that matches no request sent. *)
Definition unmatchedResponse (c : t) (payload : JSON.t) : bool :=
  notNull payload && negb (notNullish (prop payload "method"))
  && notNullish (prop payload "id")
  && match prop payload "id" with
     | Some (JNumber n) => negb (bool_decide (is_Some (requestsSent c !! n)))
     | _ => true
     end.

(** One event in the life of a session. *)
Inductive step : t -> t -> Prop :=
| step_start c : step c (fst (start c))
| step_stop c : step c (fst (stop c))
| step_connect c connected : step c (fst (startConnecting_resume c connected))
| step_disconnect c : step c (fst (onDisconnect c))
| step_data c data : step c (fst (fst (onData c data)))
| step_subscribe c graffiti : step c (fst (subscribe c graffiti))
| step_submit c miningRequestId randomness graffiti :
    step c (fst (submit c miningRequestId randomness graffiti)).

(** The ids in [requestsSent] have all been handed out. *)
Definition idsBelowNext (c : t) : Prop :=
  forall k, is_Some (requestsSent c !! k) -> k < nextMessageId c.

End WithPlatform.

End StratumClient.

(** ** The ledger kept in a database as well

    The second [MiningPoolShares] of the sources: the same array and the
    same queries, and one row inserted per share.  The database handle is a
    collaborator; what is asked of it is an effect. *)
Module MiningPoolSharesDb.

Inductive effect :=
| DbRun (sql : string) (parameter : string).

Definition t := list MiningPoolShares.Share.

Definition constructor : t := [].

(** [SharesDatabase.newShare(payoutAddress)] *)
Definition newShare (payoutAddress : string) : list effect :=
  [DbRun "INSERT INTO share (payout_address) VALUES ?" payoutAddress].

(** [submitShare]: the push, then the call of [db.newShare], which is
    awaited. *)
Definition submitShare (now : Z) (s : t) (graffiti : string)
    (miningRequestId randomness : Z) : t * list effect :=
  (s ++ [ {| MiningPoolShares.timestamp := now;
             MiningPoolShares.graffiti := graffiti;
             MiningPoolShares.miningRequestId := miningRequestId;
             MiningPoolShares.randomness := randomness |} ],
   newShare graffiti).

Definition hasShare (s : t) (g : string) (id r : Z) : bool :=
  match List.find (fun el => (MiningPoolShares.miningRequestId el =? id)
                             && (MiningPoolShares.randomness el =? r)
                             && String.eqb (MiningPoolShares.graffiti el) g) s with
  | Some _ => true
  | None => false
  end.

Definition totalShareCount (s : t) : Z := Z.of_nat (length s).

Definition graffitiShareCount (s : t) (g : string) : Z :=
  Z.of_nat (length (List.filter
                      (fun share => String.eqb (MiningPoolShares.graffiti share) g) s)).

Definition totalShareCountSince (s : t) (timeCutoff : Z) : Z :=
  Z.of_nat (length (List.filter
                      (fun share => timeCutoff <? MiningPoolShares.timestamp share) s)).

Definition graffitiShareCountSince (s : t) (g : string) (timeCutoff : Z) : Z :=
  Z.of_nat (length (List.filter
                      (fun share => (timeCutoff <? MiningPoolShares.timestamp share)
                                    && String.eqb (MiningPoolShares.graffiti share) g)
                      s)).

(** A submission: the clock reading and the three arguments. *)
Record Submission := {
  at_ : Z;
  graffiti : string;
  miningRequestId : Z;
  randomness : Z
}.

(** The submissions made one after the other, on either ledger. *)
Fixpoint submitAll (subs : list Submission) (s : t) : t * list effect :=
  match subs with
  | [] => (s, [])
  | x :: r =>
      let '(s1, e1) := submitShare (at_ x) s (graffiti x) (miningRequestId x)
                         (randomness x) in
      let '(s2, e2) := submitAll r s1 in
      (s2, e1 ++ e2)
  end.

Fixpoint submitAllInMemory (subs : list Submission) (s : MiningPoolShares.t)
    : MiningPoolShares.t :=
  match subs with
  | [] => s
  | x :: r =>
      submitAllInMemory r
        (MiningPoolShares.submitShare (at_ x) s (graffiti x) (miningRequestId x)
           (randomness x))
  end.

End MiningPoolSharesDb.

(** ** webApi.ts: the client of the web API

    [axios] is a collaborator: a method is cut at the request it awaits. *)
Module WebApi.

Module Options.
Record t := {
  host : option string;
  token : option string;
  getFundsEndpoint : option string
}.
End Options.

Record t := {
  host : string;
  token : string;
  getFundsEndpoint : option string
}.

(** [s.endsWith(c)] for a one-character [c], and [s.slice(0, -1)]. *)
Fixpoint endsWith (s : string) (c : ascii) : bool :=
  match s with
  | EmptyString => false
  | String a EmptyString => Ascii.eqb a c
  | String _ r => endsWith r c
  end.

Fixpoint slice_0_m1 (s : string) : string :=
  match s with
  | EmptyString => EmptyString
  | String _ EmptyString => EmptyString
  | String a r => String a (slice_0_m1 r)
  end.

(** [x || y] on strings: the empty string is falsy. *)
Definition orString (x : option string) (y : option string) : option string :=
  match x with
  | Some EmptyString | None => y
  | Some s => Some s
  end.

Definition defaultHost : string := "https://api-production.ironfish.network".

Definition constructor (options : option Options.t) : t :=
  let host :=
    match options ≫= Options.host with
    | Some h => h
    | None => defaultHost
    end in
  let host := if endsWith host "/" then slice_0_m1 host else host in
  {| host := host;
     token := match orString (options ≫= Options.token) (Some EmptyString) with
              | Some tk => tk
              | None => EmptyString
              end;
     getFundsEndpoint := orString (options ≫= Options.getFundsEndpoint) None |}.

(** [{ headers: { Authorization: ..., ...headers } }]: the headers passed
    in come last and win. *)
Definition options (w : t) (headers : gmap string string) : gmap string string :=
  headers ∪ {[ "Authorization"%string := ("Bearer " ++ token w)%string ]}.

Definition requireToken (w : t) : completion :=
  if String.eqb (token w) EmptyString
  then Throw "Token required for endpoint"
  else Normal.

(** A block of [FollowChainStreamResponse]; its fields are passed on as
    they are. *)
Record Block := {
  hash : JSON.t;
  sequence : JSON.t;
  timestamp : JSON.t;
  previous : JSON.t;
  difficulty : JSON.t;
  size : JSON.t;
  graffiti : JSON.t;
  main : JSON.t;
  transactions : JSON.t
}.

Record FollowChainStreamResponse := {
  type : JSON.t;
  block : Block
}.

Definition serialize (b : FollowChainStreamResponse) : list (string * JSON.t) :=
  [ ("type", type b); ("hash", hash (block b)); ("sequence", sequence (block b));
    ("timestamp", timestamp (block b));
    ("previous_block_hash", previous (block b));
    ("difficulty", difficulty (block b)); ("size", size (block b));
    ("graffiti", graffiti (block b)); ("main", main (block b));
    ("transactions", transactions (block b)) ]%string.

Inductive body :=
| NoBody
| Blocks (serialized : list (list (string * JSON.t)))
| Funds (email : option string) (public_key : string).

Inductive request :=
| Get (url : string) (headers : option (gmap string string))
| Post (url : string) (data : body) (headers : option (gmap string string)).

(** What the part of a method before its [await] does: it sends a request
    or throws. *)
Inductive called :=
| Sent (r : request)
| Thrown (error : string).

(** How a request ends. *)
Inductive response (A : Type) :=
| Ok (data : A)
| AxiosError (status : option Z)
| Failure (error : string).
Arguments Ok {A} data.
Arguments AxiosError {A} status.
Arguments Failure {A} error.

(** What a method returns or throws in the end. *)
Inductive outcome (A : Type) :=
| Returns (value : A)
| Rethrows (status : option Z) (error : string).
Arguments Returns {A} value.
Arguments Rethrows {A} status error.

Definition contentTypeJson : gmap string string :=
  {[ "Content-Type"%string := "application/json"%string ]}.

Definition head_call (w : t) : called :=
  Sent (Get (host w ++ "/blocks/head") None).

(** [response?.data.hash || null], the request having been caught. *)
Definition head_resume (r : response string) : option string :=
  match r with
  | Ok h => orString (Some h) None
  | _ => None
  end.

Definition blocks_call (w : t) (blocks : list FollowChainStreamResponse) : called :=
  match requireToken w with
  | Throw error => Thrown error
  | Normal =>
      Sent (Post (host w ++ "/blocks") (Blocks (map serialize blocks))
              (Some (options w contentTypeJson)))
  end.

Definition getFunds_call (w : t) (email : option string) (public_key : string)
    : called :=
  let endpoint :=
    match orString (getFundsEndpoint w) None with
    | Some e => e
    | None => (host w ++ "/faucet_transactions")%string
    end in
  Sent (Post endpoint (Funds email public_key) (Some (options w contentTypeJson))).

Definition getNextFaucetTransaction_call (w : t) : called :=
  match requireToken w with
  | Throw error => Thrown error
  | Normal =>
      Sent (Get (host w ++ "/faucet_transactions/next") (Some (options w ∅)))
  end.

Definition getNextFaucetTransaction_resume {A} (r : response A) : outcome (option A) :=
  match r with
  | Ok data => Returns (Some data)
  | AxiosError (Some 404) => Returns None
  | AxiosError status => Rethrows status "AxiosError"
  | Failure error => Rethrows None error
  end.

Definition startFaucetTransaction_call (w : t) (id : Z) : called :=
  match requireToken w with
  | Throw error => Thrown error
  | Normal =>
      Sent (Post (host w ++ "/faucet_transactions/" ++ pretty id ++ "/start")
              NoBody (Some (options w ∅)))
  end.

Definition completeFaucetTransaction_call (w : t) (id : Z) : called :=
  match requireToken w with
  | Throw error => Thrown error
  | Normal =>
      Sent (Post (host w ++ "/faucet_transactions/" ++ pretty id ++ "/complete")
              NoBody (Some (options w ∅)))
  end.

(** The headers a request carries. *)
Definition headersOf (c : called) : option (gmap string string) :=
  match c with
  | Sent (Get _ h) | Sent (Post _ _ h) => h
  | Thrown _ => None
  end.

Definition urlOf (c : called) : option string :=
  match c with
  | Sent (Get u _) | Sent (Post u _ _) => Some u
  | Thrown _ => None
  end.

End WebApi.

(** ** Concrete data for the examples *)
Module Sample.

(** Primitives under which every header hashes to [hash]. *)
Definition primitives (hash : Buffer.t) : Primitives :=
  {| blake3 := fun _ => hash;
     mineableHeaderString := fun h => Header.rest h;
     Target_toDifficulty := fun b => Z.quot (2 ^ 256) (Buffer.toBigInt b);
     Target_calculateDifficulty := fun _ _ d => 2 * d;
     Target_fromDifficulty := fun d => Z.quot (2 ^ 256) d |}.

(** A template whose network target is [00 00 00 01 00 ... 00]. *)
Definition networkTarget : string :=
  "0000000100000000000000000000000000000000000000000000000000000000".

Definition template : BlockTemplate.t :=
  {| BlockTemplate.header :=
       {| Header.graffiti := ""; Header.randomness := 0;
          Header.target := networkTarget; Header.timestamp := 1000;
          Header.rest := [x01; x02; x03] |};
     BlockTemplate.transactions := [];
     BlockTemplate.previousBlockInfo :=
       Some {| BlockTemplate.target := networkTarget;
               BlockTemplate.timestamp := 400 |} |}.

(** The pool after its first template: job 0 is the current job. *)
Definition pool (hash : Buffer.t) : MiningPool.t :=
  fst (fst (@MiningPool.processNewBlock (primitives hash) MiningPool.constructor template)).

(** A template whose network target is [00 00 00 00 ff 40 00 ... 00], and
    the pool after that template: job 0 is the current job. *)
Definition networkTargetHigh : string :=
  "00000000ff400000000000000000000000000000000000000000000000000000".

Definition templateHigh : BlockTemplate.t :=
  {| BlockTemplate.header :=
       {| Header.graffiti := ""; Header.randomness := 0;
          Header.target := networkTargetHigh; Header.timestamp := 1000;
          Header.rest := [x01; x02; x03] |};
     BlockTemplate.transactions := [];
     BlockTemplate.previousBlockInfo :=
       Some {| BlockTemplate.target := networkTargetHigh;
               BlockTemplate.timestamp := 400 |} |}.

Definition poolHigh (hash : Buffer.t) : MiningPool.t :=
  fst (fst (@MiningPool.processNewBlock (primitives hash) MiningPool.constructor
              templateHigh)).

(** [00 00 00 00 fe ff ... ff]: as a number, below that network target (and
    below the pool target). *)
Definition hashBelowNetworkTarget : Buffer.t :=
  [x00; x00; x00; x00; xfe] ++ repeat xff 27.

(** The pool after six templates: job 5 is the current job, job 4 is
    superseded. *)
Definition pool6 (hash : Buffer.t) : MiningPool.t :=
  Nat.iter 5
    (fun p => fst (fst (@MiningPool.processNewBlock (primitives hash) p template)))
    (pool hash).

Definition zeros (n : nat) : Buffer.t := repeat x00 n.

(** [00 00 04 80 80 80 00 ... 00]: as a number, below the pool target
    [00 00 04 88 cd 4e ...]. *)
Definition hashBelowPoolTarget : Buffer.t :=
  [x00; x00; x04; x80; x80; x80] ++ zeros 26.

(** [00 00 04 c2 80 00 ... 00]: as a number, above the pool target. *)
Definition hashAbovePoolTarget : Buffer.t :=
  [x00; x00; x04; xc2; x80] ++ zeros 27.

(** [00 00 03 00 ... 00]: below the pool target, above the network target. *)
Definition shareHash : Buffer.t := [x00; x00; x03] ++ zeros 29.

(** [00 ... 00]: below both targets. *)
Definition blockHash : Buffer.t := zeros 32.

(** [ff ... ff]: below neither. *)
Definition badHash : Buffer.t := repeat xff 32.

Definition miner : Buffer.t := [xab; xcd].

Definition share (timestamp : Z) (graffiti : string) : MiningPoolShares.Share :=
  {| MiningPoolShares.timestamp := timestamp;
     MiningPoolShares.graffiti := graffiti;
     MiningPoolShares.miningRequestId := 0;
     MiningPoolShares.randomness := timestamp |}.

(** Read at time 100000: five shares of the miner [58] in the last 60 s,
    one of his before that, and one of another miner. *)
Definition ledger : MiningPoolShares.t :=
  [share 30000 "58"; share 41000 "58"; share 52000 "58"; share 60000 "abcd";
   share 75000 "58"; share 88000 "58"; share 99000 "58"].

Definition poolWithShares : MiningPool.t :=
  MiningPool.set_shares MiningPool.constructor ledger.

(** Lines of a chunk.  [q] is the double quote. *)
Definition q : string := String "034"%char EmptyString.
Definition nl : string := String "010"%char EmptyString.

Definition codes (s : string) : list Z :=
  map (fun a => Z.of_N (N_of_ascii a)) (list_ascii_of_string s).

(** [{"method":"mining.set_target","params":["00ff"]}] *)
Definition lineSetTarget : string :=
  "{" ++ q ++ "method" ++ q ++ ":" ++ q ++ "mining.set_target" ++ q ++ ","
  ++ q ++ "params" ++ q ++ ":[" ++ q ++ "00ff" ++ q ++ "]}".

(** [{"method":"mining.bogus"}] *)
Definition lineUnknownMethod : string :=
  "{" ++ q ++ "method" ++ q ++ ":" ++ q ++ "mining.bogus" ++ q ++ "}".

(** [{"id":7}] *)
Definition lineResponse7 : string := "{" ++ q ++ "id" ++ q ++ ":7}".

(** [{"id":0,"result":"beef"}] *)
Definition lineSubscribed : string :=
  "{" ++ q ++ "id" ++ q ++ ":0," ++ q ++ "result" ++ q ++ ":" ++ q ++ "beef"
  ++ q ++ "}".

(** [{}] *)
Definition lineEmptyObject : string := "{}".

(** [oops], which is not JSON. *)
Definition lineGarbage : string := "oops".

(** [JSON.parse] on the lines above; no other line is used. *)
Definition parseTable : list (string * JSON.t) :=
  [ (lineSetTarget,
     JSON.JObject [("method"%string, JSON.JString "mining.set_target");
                   ("params"%string, JSON.JArray [JSON.JString "00ff"])]);
    (lineUnknownMethod,
     JSON.JObject [("method"%string, JSON.JString "mining.bogus")]);
    (lineResponse7, JSON.JObject [("id"%string, JSON.JNumber 7)]);
    (lineSubscribed,
     JSON.JObject [("id"%string, JSON.JNumber 0);
                   ("result"%string, JSON.JString "beef")]);
    (lineEmptyObject, JSON.JObject []) ].

Fixpoint parseWith (table : list (string * JSON.t)) (line : list Z)
    : option JSON.t :=
  match table with
  | [] => None
  | (text, value) :: r =>
      if bool_decide (codes text = line) then Some value else parseWith r line
  end.

Definition platform : Platform :=
  {| JSON_parse := parseWith parseTable;
     Buffer_from_object := fun _ => None |}.

(** The bytes of a chunk made of the given lines, each ended by a newline. *)
Fixpoint chunk (lines : list string) : Buffer.t :=
  match lines with
  | [] => []
  | line :: r => list_byte_of_string (line ++ nl) ++ chunk r
  end.

Definition client : StratumClient.t :=
  StratumClient.constructor "pool.example" 9034 miner.

(** A session that is connected and has subscribed (request 0). *)
Definition connectedClient : StratumClient.t :=
  fst (StratumClient.startConnecting_resume (fst (StratumClient.start client)) true).

End Sample.

(** * Properties of the pool orchestrator *)
Section PoolProperties.
Context `{Primitives}.

(** What [submitWork] leaves in the ledger and asks of the node, for a
    submission against the current job. *)
Lemma submitWork_accepted
    (p : MiningPool.t) (now client miningRequestId randomness : Z)
    (graffiti : Buffer.t) (l : MiningPool.loc) (b : BlockTemplate.t) :
  miningRequestId = MiningPool.nextMiningRequestId p - 1 ->
  MiningPool.getBlock p miningRequestId = Some (l, b) ->
  let hashedHeader := MiningPool.submissionHash b graffiti randomness in
  let r := MiningPool.submitWork p now client miningRequestId randomness graffiti in
  MiningPool.shares (fst r)
  = (if Buffer.lt hashedHeader (MiningPool.target p)
     then MiningPoolShares.submitShare now (MiningPool.shares p)
            (Buffer.toString_hex graffiti) miningRequestId randomness
     else MiningPool.shares p)
  /\ List.filter MiningPool.isNodeSubmission (snd r)
     = (if Buffer.lt hashedHeader
             (Buffer.from_hex (Header.target (BlockTemplate.header b)))
        then [MiningPool.RpcSubmitBlock
                (BlockTemplate.set_header b
                   (Header.set_submission (BlockTemplate.header b)
                      (Buffer.toString_hex graffiti) randomness))]
        else []).
Proof.
  intros Hid Hjob hashedHeader r. subst r hashedHeader.
  unfold MiningPool.submitWork, MiningPool.submissionHash.
  rewrite Hjob.
  replace (miningRequestId =? MiningPool.nextMiningRequestId p - 1) with true
    by (symmetry; apply Z.eqb_eq; exact Hid).
  cbn [negb BlockTemplate.set_header BlockTemplate.header Header.set_submission
       Header.target MiningPool.store MiningPool.target].
  set (h := blake3 _).
  destruct (Buffer.lt h (MiningPool.target p));
    destruct (Buffer.lt h _); cbn; split; reflexivity.
Qed.

(** The two outcomes of a submission against the latest distributed job,
    in terms of the two tests [submitWork] makes: one share exactly when
    [hashedHeader < this.target] holds, one call of the node exactly when
    [hashedHeader < Buffer.from(header.target, 'hex')] holds, each outcome
    depending on its own test only.  The tests are those of [Buffer.lt],
    which is not the order of the numbers (see below). *)
Theorem submitWork_share_and_block_independent
    (p : MiningPool.t) (now client miningRequestId randomness : Z)
    (graffiti : Buffer.t) (l : MiningPool.loc) (b : BlockTemplate.t) :
  miningRequestId = MiningPool.nextMiningRequestId p - 1 ->
  MiningPool.getBlock p miningRequestId = Some (l, b) ->
  let hashedHeader := MiningPool.submissionHash b graffiti randomness in
  let belowPool := Buffer.lt hashedHeader (MiningPool.target p) in
  let belowNetwork :=
    Buffer.lt hashedHeader
      (Buffer.from_hex (Header.target (BlockTemplate.header b))) in
  let r := MiningPool.submitWork p now client miningRequestId randomness graffiti in
  MiningPool.shares (fst r)
  = (if belowPool
     then MiningPool.shares p
          ++ [ {| MiningPoolShares.timestamp := now;
                  MiningPoolShares.graffiti := Buffer.toString_hex graffiti;
                  MiningPoolShares.miningRequestId := miningRequestId;
                  MiningPoolShares.randomness := randomness |} ]
     else MiningPool.shares p)
  /\ MiningPoolShares.totalShareCount (MiningPool.shares (fst r))
     = MiningPoolShares.totalShareCount (MiningPool.shares p)
       + (if belowPool then 1 else 0)
  /\ MiningPool.count MiningPool.isNodeSubmission (snd r)
     = (if belowNetwork then 1 else 0)%nat.
Proof.
  intros Hid Hjob hashedHeader belowPool belowNetwork r.
  destruct (submitWork_accepted p now client miningRequestId randomness graffiti
              l b Hid Hjob) as [Hs Hn].
  cbn zeta in Hs, Hn. subst r belowPool belowNetwork hashedHeader.
  unfold MiningPool.count. rewrite Hs, Hn.
  unfold MiningPoolShares.totalShareCount, MiningPoolShares.submitShare.
  destruct (Buffer.lt _ (MiningPool.target p)); destruct (Buffer.lt _ _);
    rewrite ?length_app; cbn; repeat split; lia.
Qed.

(** C2. A submission whose id is not that of the latest distributed job is
    rejected: the pool is left as it was (no share, no job touched) and the
    node is not called, whatever the hash would have been. *)
Theorem submitWork_stale_rejected
    (p : MiningPool.t) (now client miningRequestId randomness : Z)
    (graffiti : Buffer.t) :
  miningRequestId <> MiningPool.nextMiningRequestId p - 1 ->
  let r := MiningPool.submitWork p now client miningRequestId randomness graffiti in
  fst r = p
  /\ MiningPool.shares (fst r) = MiningPool.shares p
  /\ MiningPool.count MiningPool.isNodeSubmission (snd r) = 0%nat
  /\ snd r = [MiningPool.Log Debug "Stale share submitted"].
Proof.
  intros Hid r. subst r. unfold MiningPool.submitWork.
  apply Z.eqb_neq in Hid. rewrite Hid. cbn. auto.
Qed.

(** C3 (amended). A retarget tick re-issues the current job under a fresh
    mining request id: [nextMiningRequestId] advances by one, the broadcast
    carries the new id, the new id and the previous one refer to the same
    job object, and that object differs from what it was before the tick in
    its target and timestamp only. *)
Theorem recalculateTarget_reissues_under_fresh_id
    (p : MiningPool.t) (now headTimestamp headDifficulty : Z)
    (l : MiningPool.loc) (b : BlockTemplate.t) :
  MiningPool.currentHeadTimestamp p = Some headTimestamp ->
  MiningPool.currentHeadDifficulty p = Some headDifficulty ->
  MiningPool.getBlock p (MiningPool.nextMiningRequestId p - 1) = Some (l, b) ->
  let newTarget :=
    Buffer.toString_hex
      (BigIntUtils.toBytesBE
         (Target_fromDifficulty
            (Target_calculateDifficulty now headTimestamp headDifficulty)) 32) in
  let b' := BlockTemplate.set_header b
              (Header.set_retarget (BlockTemplate.header b) newTarget now) in
  let r := MiningPool.recalculateTarget p now in
  let p' := fst (fst r) in
  r = (p', [MiningPool.StratumNewWork (MiningPool.nextMiningRequestId p) b'
              headDifficulty headTimestamp], Normal)
  /\ MiningPool.nextMiningRequestId p' = MiningPool.nextMiningRequestId p + 1
  /\ MiningPool.getBlock p' (MiningPool.nextMiningRequestId p' - 1) = Some (l, b')
  /\ MiningPool.getBlock p' (MiningPool.nextMiningRequestId p - 1) = Some (l, b')
  /\ Header.graffiti (BlockTemplate.header b') = Header.graffiti (BlockTemplate.header b)
  /\ Header.randomness (BlockTemplate.header b') = Header.randomness (BlockTemplate.header b)
  /\ Header.rest (BlockTemplate.header b') = Header.rest (BlockTemplate.header b)
  /\ Header.target (BlockTemplate.header b') = newTarget
  /\ Header.timestamp (BlockTemplate.header b') = now
  /\ BlockTemplate.transactions b' = BlockTemplate.transactions b
  /\ BlockTemplate.previousBlockInfo b' = BlockTemplate.previousBlockInfo b.
Proof.
  intros Hts Hd Hjob newTarget b' r p'. subst p' r.
  unfold MiningPool.recalculateTarget. rewrite Hts, Hd, Hjob.
  unfold MiningPool.distributeNewBlock.
  cbn [MiningPool.store MiningPool.currentHeadTimestamp
       MiningPool.currentHeadDifficulty MiningPool.nextMiningRequestId].
  rewrite Hts, Hd. fold newTarget. fold b'.
  cbn [fst snd MiningPool.set_jobs MiningPool.nextMiningRequestId].
  split; [reflexivity|]. split; [reflexivity|].
  assert (Hl : MiningPool.miningRequestBlocks p
               !! (MiningPool.nextMiningRequestId p - 1) = Some l).
  { unfold MiningPool.getBlock in Hjob.
    destruct (MiningPool.miningRequestBlocks p !! _) as [l0|]; [|discriminate].
    destruct (MiningPool.heap p !! l0); [|discriminate]. congruence. }
  split.
  { unfold MiningPool.getBlock; cbn.
    replace (MiningPool.nextMiningRequestId p + 1 - 1)
      with (MiningPool.nextMiningRequestId p) by lia.
    by rewrite !lookup_insert_eq. }
  split.
  { unfold MiningPool.getBlock; cbn.
    rewrite lookup_insert_ne by lia. rewrite Hl. by rewrite lookup_insert_eq. }
  repeat split.
Qed.

(** C5 (amended). An accepted submission writes its graffiti and
    randomness into the stored object of the current job; the other fields
    of that object, every other job object and the map from ids to objects
    are the same after the call as before it. *)
Theorem submitWork_overwrites_current_job
    (p : MiningPool.t) (now client miningRequestId randomness : Z)
    (graffiti : Buffer.t) (l : MiningPool.loc) (b : BlockTemplate.t) :
  miningRequestId = MiningPool.nextMiningRequestId p - 1 ->
  MiningPool.getBlock p miningRequestId = Some (l, b) ->
  let p' :=
    fst (MiningPool.submitWork p now client miningRequestId randomness graffiti) in
  let b' := BlockTemplate.set_header b
              (Header.set_submission (BlockTemplate.header b)
                 (Buffer.toString_hex graffiti) randomness) in
  MiningPool.miningRequestBlocks p' = MiningPool.miningRequestBlocks p
  /\ MiningPool.nextMiningRequestId p' = MiningPool.nextMiningRequestId p
  /\ MiningPool.getBlock p' miningRequestId = Some (l, b')
  /\ (forall l', l' <> l -> MiningPool.heap p' !! l' = MiningPool.heap p !! l')
  /\ Header.graffiti (BlockTemplate.header b') = Buffer.toString_hex graffiti
  /\ Header.randomness (BlockTemplate.header b') = randomness
  /\ Header.target (BlockTemplate.header b') = Header.target (BlockTemplate.header b)
  /\ Header.timestamp (BlockTemplate.header b') = Header.timestamp (BlockTemplate.header b)
  /\ Header.rest (BlockTemplate.header b') = Header.rest (BlockTemplate.header b)
  /\ BlockTemplate.transactions b' = BlockTemplate.transactions b
  /\ BlockTemplate.previousBlockInfo b' = BlockTemplate.previousBlockInfo b.
Proof.
  intros Hid Hjob p' b'. subst p'.
  assert (Hst : forall q : MiningPool.t,
             MiningPool.miningRequestBlocks q = MiningPool.miningRequestBlocks p ->
             MiningPool.heap q = <[l := b']> (MiningPool.heap p) ->
             MiningPool.getBlock q miningRequestId = Some (l, b')
             /\ (forall l', l' <> l ->
                 MiningPool.heap q !! l' = MiningPool.heap p !! l')).
  { intros q Hb Hh. split.
    - unfold MiningPool.getBlock in *. rewrite Hb, Hh.
      destruct (MiningPool.miningRequestBlocks p !! miningRequestId) as [l0|];
        [|discriminate].
      destruct (MiningPool.heap p !! l0); [|discriminate].
      injection Hjob as -> _. by rewrite lookup_insert_eq.
    - intros l' Hl'. rewrite Hh. by rewrite lookup_insert_ne. }
  unfold MiningPool.submitWork. rewrite Hjob.
  replace (miningRequestId =? MiningPool.nextMiningRequestId p - 1) with true
    by (symmetry; apply Z.eqb_eq; exact Hid).
  cbn [negb]. fold b'.
  cbn [MiningPool.store MiningPool.target].
  destruct (Buffer.lt _ (MiningPool.target p)); cbn [fst];
    (split; [reflexivity|]); (split; [reflexivity|]);
    (split; [apply Hst; reflexivity|]); (split; [apply Hst; reflexivity|]);
    repeat split.
Qed.

(** The pool target of a new pool: difficulty 3,700,000, and the 32
    big-endian bytes of [floor(2^256 / 3,700,000)]. *)
Lemma pool_target_is_floor :
  MiningPool.difficulty MiningPool.constructor = 3700000
  /\ MiningPool.target MiningPool.constructor
     = BigIntUtils.toBytesBE (2 ^ 256 / 3700000) 32
  /\ length (MiningPool.target MiningPool.constructor) = 32%nat
  /\ Buffer.toBigInt (MiningPool.target MiningPool.constructor)
     = 2 ^ 256 / 3700000
  /\ MiningPool.getTarget MiningPool.constructor
     = "00000488cd4e07a7fca7006d6458fa78b4af3cea4f14e29aa007039d94b3d7da"%string.
Proof. vm_compute. repeat split. Qed.

(** C4 (the code at the failing input). A submission against the current
    job whose header hashes to [00 00 04 80 80 80 00 ... 00], a number below
    the pool target, records no share: [<] on two Buffers compares the
    strings they decode to, and that of the hash is not below that of the
    target. *)
Theorem submitWork_misses_share_numerically_below_target
    (p : MiningPool.t) (now client miningRequestId randomness : Z)
    (graffiti : Buffer.t) (l : MiningPool.loc) (b : BlockTemplate.t) :
  MiningPool.target p = MiningPool.target MiningPool.constructor ->
  miningRequestId = MiningPool.nextMiningRequestId p - 1 ->
  MiningPool.getBlock p miningRequestId = Some (l, b) ->
  MiningPool.submissionHash b graffiti randomness = Sample.hashBelowPoolTarget ->
  let p' :=
    fst (MiningPool.submitWork p now client miningRequestId randomness graffiti) in
  Buffer.numericLt (MiningPool.submissionHash b graffiti randomness)
    (MiningPool.target p) = true
  /\ MiningPool.shares p' = MiningPool.shares p
  /\ MiningPoolShares.graffitiShareCount (MiningPool.shares p')
       (Buffer.toString_hex graffiti)
     = MiningPoolShares.graffitiShareCount (MiningPool.shares p)
         (Buffer.toString_hex graffiti).
Proof.
  intros Ht Hid Hjob Hh p'.
  pose proof (submitWork_accepted p now client
                miningRequestId randomness graffiti l b Hid Hjob) as (Hs & _).
  cbn zeta in Hs. subst p'. rewrite Hs, Hh, Ht.
  replace (Buffer.lt Sample.hashBelowPoolTarget
             (MiningPool.target MiningPool.constructor)) with false
    by (vm_compute; reflexivity).
  split; [vm_compute; reflexivity|]. split; reflexivity.
Qed.

(** C1 (the code at the failing input). A submission against the current
    job whose header hashes to [00 00 00 00 fe ff ... ff], for a job whose
    network target is [00 00 00 00 ff 40 00 ... 00]: the hash is, as a
    number, below the network target and below the pool target; a share is
    recorded, and the node is not called.  [<] on two Buffers compares the
    strings they decode to: that of the hash is [0 0 0 0 FFFD FFFD ...],
    that of the network target [0 0 0 0 FFFD 40 ...]. *)
Theorem submitWork_misses_block_numerically_below_target
    (p : MiningPool.t) (now client miningRequestId randomness : Z)
    (graffiti : Buffer.t) (l : MiningPool.loc) (b : BlockTemplate.t) :
  MiningPool.target p = MiningPool.target MiningPool.constructor ->
  miningRequestId = MiningPool.nextMiningRequestId p - 1 ->
  MiningPool.getBlock p miningRequestId = Some (l, b) ->
  Header.target (BlockTemplate.header b) = Sample.networkTargetHigh ->
  MiningPool.submissionHash b graffiti randomness = Sample.hashBelowNetworkTarget ->
  let r := MiningPool.submitWork p now client miningRequestId randomness graffiti in
  Buffer.numericLt (MiningPool.submissionHash b graffiti randomness)
    (Buffer.from_hex (Header.target (BlockTemplate.header b))) = true
  /\ Buffer.numericLt (MiningPool.submissionHash b graffiti randomness)
       (MiningPool.target p) = true
  /\ MiningPool.count MiningPool.isNodeSubmission (snd r) = 0%nat
  /\ MiningPoolShares.totalShareCount (MiningPool.shares (fst r))
     = MiningPoolShares.totalShareCount (MiningPool.shares p) + 1.
Proof.
  intros Ht Hid Hjob Hnet Hh r.
  pose proof (submitWork_accepted p now client
                miningRequestId randomness graffiti l b Hid Hjob) as (Hs & Hn).
  cbn zeta in Hs, Hn. subst r. unfold MiningPool.count.
  rewrite Hs, Hn, Hh, Ht, Hnet.
  replace (Buffer.lt Sample.hashBelowNetworkTarget
             (Buffer.from_hex Sample.networkTargetHigh)) with false
    by (vm_compute; reflexivity).
  replace (Buffer.lt Sample.hashBelowNetworkTarget
             (MiningPool.target MiningPool.constructor)) with true
    by (vm_compute; reflexivity).
  split; [vm_compute; reflexivity|]. split; [vm_compute; reflexivity|].
  split; [reflexivity|].
  unfold MiningPoolShares.totalShareCount, MiningPoolShares.submitShare.
  rewrite length_app. cbn. lia.
Qed.

(** The other way round: a hash [00 00 04 c2 80 00 ... 00], a number above
    the pool target, is recorded as a share. *)
Lemma submitWork_records_share_numerically_above_target
    (p : MiningPool.t) (now client miningRequestId randomness : Z)
    (graffiti : Buffer.t) (l : MiningPool.loc) (b : BlockTemplate.t) :
  MiningPool.target p = MiningPool.target MiningPool.constructor ->
  miningRequestId = MiningPool.nextMiningRequestId p - 1 ->
  MiningPool.getBlock p miningRequestId = Some (l, b) ->
  MiningPool.submissionHash b graffiti randomness = Sample.hashAbovePoolTarget ->
  let p' :=
    fst (MiningPool.submitWork p now client miningRequestId randomness graffiti) in
  Buffer.numericLt (MiningPool.submissionHash b graffiti randomness)
    (MiningPool.target p) = false
  /\ MiningPoolShares.totalShareCount (MiningPool.shares p')
     = MiningPoolShares.totalShareCount (MiningPool.shares p) + 1.
Proof.
  intros Ht Hid Hjob Hh p'.
  pose proof (submitWork_accepted p now client
                miningRequestId randomness graffiti l b Hid Hjob) as (Hs & _).
  cbn zeta in Hs. subst p'. rewrite Hs, Hh, Ht.
  replace (Buffer.lt Sample.hashAbovePoolTarget
             (MiningPool.target MiningPool.constructor)) with true
    by (vm_compute; reflexivity).
  split; [vm_compute; reflexivity|].
  unfold MiningPoolShares.totalShareCount, MiningPoolShares.submitShare.
  rewrite length_app. cbn. lia.
Qed.

Lemma count_since_bounds (s : MiningPoolShares.t) (g : string) (cutoff : Z) :
  0 <= MiningPoolShares.graffitiShareCountSince s g cutoff <= Z.of_nat (length s)
  /\ 0 <= MiningPoolShares.totalShareCountSince s cutoff <= Z.of_nat (length s).
Proof.
  unfold MiningPoolShares.graffitiShareCountSince,
    MiningPoolShares.totalShareCountSince.
  pose proof (List.filter_length_le
                (fun share => (cutoff <? MiningPoolShares.timestamp share)
                              && String.eqb (MiningPoolShares.graffiti share) g) s).
  pose proof (List.filter_length_le
                (fun share => cutoff <? MiningPoolShares.timestamp share) s).
  lia.
Qed.

Lemma hashrate_div (p : MiningPool.t) (now : Z) (graffiti : string) :
  MiningPool.difficulty p = 3700000 ->
  MiningPool.graffitiHashrate p now graffiti
  = MiningPoolShares.graffitiShareCountSince (MiningPool.shares p) graffiti
      (now - 60 * 1000) * 3700000 / 60
  /\ MiningPool.hashrate p now
     = MiningPoolShares.totalShareCountSince (MiningPool.shares p)
         (now - 60 * 1000) * 3700000 / 60.
Proof.
  intros Hd.
  pose proof (count_since_bounds (MiningPool.shares p) graffiti (now - 60 * 1000))
    as [Hn Hm].
  unfold MiningPool.graffitiHashrate, MiningPool.hashrate, MiningPool.Number,
    MiningPool.HASHRATE_TIME_CUTOFF_MILLISECONDS,
    MiningPool.HASHRATE_TIME_CUTOFF_SECONDS.
  rewrite Hd. split; apply Z.quot_div_nonneg; lia.
Qed.

(** C10 (amended). The hashrates are the share counts of the 60 s window
    times the pool difficulty, divided by 60 and rounded down. *)
Theorem hashrate_rounds_down (p : MiningPool.t) (now : Z) (graffiti : string) :
  MiningPool.difficulty p = 3700000 ->
  let n := MiningPoolShares.graffitiShareCountSince (MiningPool.shares p)
             graffiti (now - 60 * 1000) in
  let m := MiningPoolShares.totalShareCountSince (MiningPool.shares p)
             (now - 60 * 1000) in
  MiningPool.graffitiHashrate p now graffiti = n * 3700000 / 60
  /\ MiningPool.hashrate p now = m * 3700000 / 60
  /\ 60 * MiningPool.graffitiHashrate p now graffiti <= n * 3700000
     < 60 * MiningPool.graffitiHashrate p now graffiti + 60
  /\ (n = 5 -> MiningPool.graffitiHashrate p now graffiti = 308333).
Proof.
  intros Hd n m.
  destruct (hashrate_div p now graffiti Hd) as [Hg Ht].
  fold n in Hg. fold m in Ht.
  split; [exact Hg|]. split; [exact Ht|]. split.
  - rewrite Hg.
    pose proof (Z.mul_div_le (n * 3700000) 60 ltac:(lia)).
    pose proof (Z.mul_succ_div_gt (n * 3700000) 60 ltac:(lia)). lia.
  - intros Hn5. rewrite Hg, Hn5. reflexivity.
Qed.

(** An array holds fewer than [2^32] elements, so a hashrate stays below
    [2^53] and [Number] loses nothing. *)
Lemma hashrate_is_safe_integer (p : MiningPool.t) (now : Z) (graffiti : string) :
  MiningPool.difficulty p = 3700000 ->
  Z.of_nat (length (MiningPool.shares p)) < 2 ^ 32 ->
  0 <= MiningPool.graffitiHashrate p now graffiti < 2 ^ 53
  /\ 0 <= MiningPool.hashrate p now < 2 ^ 53.
Proof.
  intros Hd Hlen.
  destruct (hashrate_div p now graffiti Hd) as [Hg Ht].
  pose proof (count_since_bounds (MiningPool.shares p) graffiti (now - 60 * 1000))
    as [Hn Hm].
  rewrite Hg, Ht. split.
  - split; [apply Z.div_pos; lia|]. apply Z.div_lt_upper_bound; lia.
  - split; [apply Z.div_pos; lia|]. apply Z.div_lt_upper_bound; lia.
Qed.

(** ** The states the pool reaches *)

Lemma getBlock_store_is_Some p l b id :
  is_Some (MiningPool.getBlock p id) ->
  is_Some (MiningPool.getBlock (MiningPool.store p l b) id).
Proof.
  unfold MiningPool.getBlock; cbn.
  destruct (MiningPool.miningRequestBlocks p !! id) as [l0|]; [|intros [? [=]]].
  destruct (MiningPool.heap p !! l0) as [b0|] eqn:E; [|intros [? [=]]].
  intros _. destruct (decide (l = l0)) as [->|Hne].
  - rewrite lookup_insert_eq. eauto.
  - rewrite lookup_insert_ne by done. rewrite E. eauto.
Qed.

Lemma jobsStored_store p l b :
  MiningPool.jobsStored p -> MiningPool.jobsStored (MiningPool.store p l b).
Proof.
  intros [Hn Hj]. split; [exact Hn|].
  intros id Hid. apply getBlock_store_is_Some, Hj, Hid.
Qed.

Lemma jobsStored_distributeNewBlock p l b :
  MiningPool.jobsStored p ->
  is_Some (MiningPool.heap p !! l) ->
  MiningPool.jobsStored (fst (fst (MiningPool.distributeNewBlock p l b))).
Proof.
  intros [Hn Hj] [b0 Hl]. unfold MiningPool.distributeNewBlock.
  destruct (MiningPool.currentHeadTimestamp p); [|split; assumption].
  destruct (MiningPool.currentHeadDifficulty p); [|split; assumption].
  cbn. split; [cbn; lia|]. cbn. intros id Hid.
  unfold MiningPool.getBlock; cbn.
  destruct (decide (id = MiningPool.nextMiningRequestId p)) as [->|Hne].
  - rewrite lookup_insert_eq, Hl. eauto.
  - rewrite lookup_insert_ne by done.
    apply (Hj id). lia.
Qed.

Lemma targetFixed_distributeNewBlock p l b :
  MiningPool.targetFixed p ->
  MiningPool.targetFixed (fst (fst (MiningPool.distributeNewBlock p l b))).
Proof.
  unfold MiningPool.distributeNewBlock.
  destruct (MiningPool.currentHeadTimestamp p); [|trivial].
  destruct (MiningPool.currentHeadDifficulty p); trivial.
Qed.

Lemma reachable_invariant p :
  MiningPool.reachable p -> MiningPool.jobsStored p /\ MiningPool.targetFixed p.
Proof.
  induction 1 as [ | p _ [IH1 IH2] | p _ [IH1 IH2] | p c _ [IH1 IH2]
                 | p payload _ [IH1 IH2] | p now _ [IH1 IH2]
                 | p now client id r g _ [IH1 IH2] ].
  - split; [split; [cbn; lia|cbn; intros; lia]|split; reflexivity].
  - unfold MiningPool.start. destruct (MiningPool.started p); auto.
  - unfold MiningPool.stop. destruct (MiningPool.started p); auto.
  - unfold MiningPool.startConnectingRpc_resume.
    destruct (MiningPool.started p); cbn; auto. destruct c; cbn; auto.
  - unfold MiningPool.processNewBlock.
    destruct (BlockTemplate.previousBlockInfo payload) as [info|]; [|auto].
    cbn [MiningPool.restartCalculateTargetInterval].
    match goal with
    | |- context [MiningPool.distributeNewBlock ?q ?l ?b] =>
        pose proof (jobsStored_distributeNewBlock q l b) as Hj;
        pose proof (targetFixed_distributeNewBlock q l b) as Ht;
        destruct (MiningPool.distributeNewBlock q l b) as [[q' e'] c']
    end.
    cbn [fst] in *. split.
    + apply Hj.
      * destruct IH1 as [Hn Hs]. split; [exact Hn|]. intros id Hid.
        apply (getBlock_store_is_Some p _ payload id (Hs id Hid)).
      * cbn. rewrite lookup_insert_eq. eauto.
    + apply Ht. exact IH2.
  - unfold MiningPool.recalculateTarget.
    destruct (MiningPool.currentHeadTimestamp p); [|auto].
    destruct (MiningPool.currentHeadDifficulty p); [|auto].
    destruct (MiningPool.getBlock p _) as [[l b]|]; [|auto]. split.
    + apply jobsStored_distributeNewBlock.
      * apply jobsStored_store, IH1.
      * cbn. rewrite lookup_insert_eq. eauto.
    + apply targetFixed_distributeNewBlock. exact IH2.
  - unfold MiningPool.submitWork.
    destruct (negb _); [auto|].
    destruct (MiningPool.getBlock p id) as [[l b]|]; [|auto].
    cbn [MiningPool.store MiningPool.target].
    destruct (Buffer.lt _ (MiningPool.target p)); cbn [fst]; split;
      try exact IH2;
      apply (jobsStored_store p l _ IH1).
Qed.

(** In a reachable state a submission for the latest id finds its job. *)
Lemma reachable_current_job p :
  MiningPool.reachable p ->
  0 < MiningPool.nextMiningRequestId p ->
  exists l b,
    MiningPool.getBlock p (MiningPool.nextMiningRequestId p - 1) = Some (l, b).
Proof.
  intros Hr Hpos. destruct (reachable_invariant p Hr) as [[_ Hj] _].
  destruct (Hj (MiningPool.nextMiningRequestId p - 1) ltac:(lia)) as [[l b] E].
  eauto.
Qed.

End PoolProperties.

(** ** The pool on concrete submissions *)

Lemma submitWork_share_and_block_independent_witness :
  let P := Sample.primitives Sample.shareHash in
  let p := Sample.pool Sample.shareHash in
  let r := @MiningPool.submitWork P p 5000 1 0 77 Sample.miner in
  0 = MiningPool.nextMiningRequestId p - 1
  /\ MiningPool.getBlock p 0 = Some (1%positive, Sample.template)
  /\ MiningPool.shares (fst r)
     = [ {| MiningPoolShares.timestamp := 5000;
            MiningPoolShares.graffiti := "abcd";
            MiningPoolShares.miningRequestId := 0;
            MiningPoolShares.randomness := 77 |} ]
  /\ MiningPoolShares.totalShareCount (MiningPool.shares (fst r)) = 1
  /\ MiningPool.count MiningPool.isNodeSubmission (snd r) = 0%nat.
Proof.
  intros P p r.
  assert (Hid : 0 = MiningPool.nextMiningRequestId p - 1) by reflexivity.
  assert (Hjob : MiningPool.getBlock p 0 = Some (1%positive, Sample.template))
    by (vm_compute; reflexivity).
  split; [exact Hid|]. split; [exact Hjob|].
  exact (@submitWork_share_and_block_independent P p 5000 1 0 77 Sample.miner
           1%positive Sample.template Hid Hjob).
Defined.

(** A hash below both targets: one share and one node submission. *)
Lemma submitWork_block_example :
  let P := Sample.primitives Sample.blockHash in
  let r := @MiningPool.submitWork P (Sample.pool Sample.blockHash) 5000 1 0 77
             Sample.miner in
  length (MiningPool.shares (fst r)) = 1%nat
  /\ MiningPool.count MiningPool.isNodeSubmission (snd r) = 1%nat.
Proof. vm_compute. split; reflexivity. Qed.

(** A hash below neither target: nothing. *)
Lemma submitWork_bad_hash_example :
  let P := Sample.primitives Sample.badHash in
  let r := @MiningPool.submitWork P (Sample.pool Sample.badHash) 5000 1 0 77
             Sample.miner in
  MiningPool.shares (fst r) = [] /\ snd r = [].
Proof. vm_compute. split; reflexivity. Qed.

(** Jobs 5 (current) and 4 (superseded): a winning hash against job 4. *)
Lemma submitWork_stale_rejected_witness :
  let P := Sample.primitives Sample.blockHash in
  let p := Sample.pool6 Sample.blockHash in
  let r := @MiningPool.submitWork P p 5000 1 4 77 Sample.miner in
  MiningPool.nextMiningRequestId p = 6
  /\ fst r = p
  /\ MiningPool.shares (fst r) = MiningPool.shares p
  /\ MiningPool.count MiningPool.isNodeSubmission (snd r) = 0%nat
  /\ snd r = [MiningPool.Log Debug "Stale share submitted"].
Proof.
  intros P p r.
  assert (Hn : MiningPool.nextMiningRequestId p = 6) by (vm_compute; reflexivity).
  split; [exact Hn|].
  apply (@submitWork_stale_rejected P p 5000 1 4 77 Sample.miner).
  rewrite Hn. lia.
Defined.

(** C3 (counterexample). After one template the current job has id 0; the
    retarget tick broadcasts id 1 and leaves 1 as the id of the current
    job. *)
Lemma recalculateTarget_changes_job_id :
  let P := Sample.primitives Sample.blockHash in
  let p := Sample.pool Sample.blockHash in
  let r := @MiningPool.recalculateTarget P p 5000 in
  snd r = Normal
  /\ MiningPool.nextMiningRequestId p - 1 = 0
  /\ MiningPool.nextMiningRequestId (fst (fst r)) - 1 = 1
  /\ MiningPool.nextMiningRequestId (fst (fst r))
     <> MiningPool.nextMiningRequestId p
  /\ exists b d ts, snd (fst r) = [MiningPool.StratumNewWork 1 b d ts].
Proof.
  vm_compute. repeat split; try discriminate. eauto.
Qed.

Lemma recalculateTarget_reissues_under_fresh_id_witness :
  let P := Sample.primitives Sample.blockHash in
  let p := Sample.pool Sample.blockHash in
  let r := @MiningPool.recalculateTarget P p 5000 in
  MiningPool.nextMiningRequestId (fst (fst r)) = MiningPool.nextMiningRequestId p + 1
  /\ exists b', MiningPool.getBlock (fst (fst r)) 1 = Some (1%positive, b')
             /\ MiningPool.getBlock (fst (fst r)) 0 = Some (1%positive, b')
             /\ Header.timestamp (BlockTemplate.header b') = 5000.
Proof.
  intros P p r.
  destruct (@recalculateTarget_reissues_under_fresh_id P p 5000 400 (2 ^ 32)
              1%positive Sample.template
              ltac:(vm_compute; reflexivity) ltac:(vm_compute; reflexivity)
              ltac:(vm_compute; reflexivity))
    as (_ & Hn & Hnew & Hold & _ & _ & _ & _ & Hts & _).
  split; [exact Hn|]. eexists. split; [exact Hnew|]. split; [exact Hold|].
  exact Hts.
Defined.

Lemma submitWork_misses_share_numerically_below_target_witness :
  let P := Sample.primitives Sample.hashBelowPoolTarget in
  let p := Sample.pool Sample.hashBelowPoolTarget in
  let p' := fst (@MiningPool.submitWork P p 5000 1 0 77 Sample.miner) in
  Buffer.toBigInt Sample.hashBelowPoolTarget
  < Buffer.toBigInt (MiningPool.target p)
  /\ MiningPool.shares p' = []
  /\ MiningPoolShares.graffitiShareCount (MiningPool.shares p') "abcd" = 0.
Proof.
  intros P p p'.
  destruct (@submitWork_misses_share_numerically_below_target P p 5000 1 0 77
              Sample.miner 1%positive Sample.template
              ltac:(vm_compute; reflexivity) ltac:(vm_compute; reflexivity)
              ltac:(vm_compute; reflexivity) ltac:(vm_compute; reflexivity))
    as (Hlt & Hs & Hc).
  split; [apply Z.ltb_lt; exact Hlt|]. split; [exact Hs|exact Hc].
Defined.

Lemma submitWork_misses_block_numerically_below_target_witness :
  let P := Sample.primitives Sample.hashBelowNetworkTarget in
  let p := Sample.poolHigh Sample.hashBelowNetworkTarget in
  let r := @MiningPool.submitWork P p 5000 1 0 77 Sample.miner in
  Buffer.toBigInt Sample.hashBelowNetworkTarget
  < Buffer.toBigInt (Buffer.from_hex Sample.networkTargetHigh)
  /\ Buffer.toBigInt Sample.hashBelowNetworkTarget
     < Buffer.toBigInt (MiningPool.target p)
  /\ MiningPool.count MiningPool.isNodeSubmission (snd r) = 0%nat
  /\ MiningPoolShares.totalShareCount (MiningPool.shares (fst r)) = 1.
Proof.
  intros P p r.
  destruct (@submitWork_misses_block_numerically_below_target P p 5000 1 0 77
              Sample.miner 1%positive Sample.templateHigh
              ltac:(vm_compute; reflexivity) ltac:(vm_compute; reflexivity)
              ltac:(vm_compute; reflexivity) ltac:(vm_compute; reflexivity)
              ltac:(vm_compute; reflexivity))
    as (Hnet & Hpool & Hn & Hs).
  split; [apply Z.ltb_lt; exact Hnet|]. split; [apply Z.ltb_lt; exact Hpool|].
  split; [exact Hn|exact Hs].
Defined.

(** C5 (counterexample). The stored current job has graffiti [""] and
    randomness 0 before the call, and those of the submission after it. *)
Lemma submitWork_alters_stored_template :
  let P := Sample.primitives Sample.shareHash in
  let p := Sample.pool Sample.shareHash in
  let p' := fst (@MiningPool.submitWork P p 5000 1 0 77 Sample.miner) in
  exists b b',
    MiningPool.getBlock p 0 = Some (1%positive, b)
    /\ MiningPool.getBlock p' 0 = Some (1%positive, b')
    /\ Header.graffiti (BlockTemplate.header b) = ""%string
    /\ Header.graffiti (BlockTemplate.header b') = "abcd"%string
    /\ Header.randomness (BlockTemplate.header b) = 0
    /\ Header.randomness (BlockTemplate.header b') = 77
    /\ b <> b'.
Proof.
  vm_compute. do 2 eexists. repeat split; try reflexivity. discriminate.
Qed.

(** After a retarget tick ids 0 and 1 refer to one object: a submission
    against job 1 changes what is stored for the superseded job 0 as well. *)
Lemma submitWork_reaches_superseded_job :
  let P := Sample.primitives Sample.shareHash in
  let p := fst (fst (@MiningPool.recalculateTarget P
                       (Sample.pool Sample.shareHash) 5000)) in
  let p' := fst (@MiningPool.submitWork P p 6000 1 1 77 Sample.miner) in
  exists l b b',
    MiningPool.getBlock p 0 = Some (l, b)
    /\ MiningPool.getBlock p 1 = Some (l, b)
    /\ MiningPool.getBlock p' 0 = Some (l, b')
    /\ MiningPool.getBlock p' 1 = Some (l, b')
    /\ Header.graffiti (BlockTemplate.header b) = ""%string
    /\ Header.graffiti (BlockTemplate.header b') = "abcd"%string.
Proof.
  vm_compute. do 3 eexists. repeat split; reflexivity.
Qed.

Lemma submitWork_overwrites_current_job_witness :
  let P := Sample.primitives Sample.shareHash in
  let p := Sample.pool Sample.shareHash in
  let p' := fst (@MiningPool.submitWork P p 5000 1 0 77 Sample.miner) in
  MiningPool.miningRequestBlocks p' = MiningPool.miningRequestBlocks p
  /\ MiningPool.getBlock p' 0
     = Some (1%positive,
             BlockTemplate.set_header Sample.template
               (Header.set_submission (BlockTemplate.header Sample.template)
                  "abcd" 77)).
Proof.
  intros P p p'.
  destruct (@submitWork_overwrites_current_job P p 5000 1 0 77 Sample.miner
              1%positive Sample.template
              ltac:(vm_compute; reflexivity) ltac:(vm_compute; reflexivity))
    as (Hb & _ & Hg & _).
  split; [exact Hb|exact Hg].
Defined.

(** C10 (counterexample). Five shares in the window give 308333, and
    [60 * 308333] is not [5 * 3,700,000]: the hashrate is not the exact
    quotient. *)
Lemma graffitiHashrate_five_shares_not_exact :
  let p := Sample.poolWithShares in
  MiningPoolShares.graffitiShareCountSince (MiningPool.shares p) "58"
    (100000 - 60 * 1000) = 5
  /\ MiningPool.difficulty p = 3700000
  /\ MiningPool.graffitiHashrate p 100000 "58" = 308333
  /\ 60 * MiningPool.graffitiHashrate p 100000 "58" <> 5 * 3700000.
Proof. vm_compute. repeat split; discriminate. Qed.

Lemma hashrate_rounds_down_witness :
  let p := Sample.poolWithShares in
  MiningPool.graffitiHashrate p 100000 "58" = 5 * 3700000 / 60
  /\ MiningPool.hashrate p 100000 = 6 * 3700000 / 60.
Proof.
  intros p.
  destruct (hashrate_rounds_down p 100000 "58" ltac:(reflexivity))
    as (Hg & Ht & _).
  split; [exact Hg|exact Ht].
Defined.

(** * Properties of the worker session *)
Section ClientProperties.
Context `{Platform}.

(** ** The correlation map *)

Lemma onPayload_keeps_requests (c : StratumClient.t) (payload : JSON.t) :
  StratumClient.requestsSent (fst (fst (StratumClient.onPayload c payload)))
  = StratumClient.requestsSent c
  /\ StratumClient.nextMessageId (fst (fst (StratumClient.onPayload c payload)))
     = StratumClient.nextMessageId c.
Proof.
  unfold StratumClient.onPayload.
  repeat case_match; split; reflexivity.
Qed.

Lemma onLines_keeps_requests (lines : list (list Z)) (c : StratumClient.t) :
  StratumClient.requestsSent (fst (fst (StratumClient.onLines c lines)))
  = StratumClient.requestsSent c
  /\ StratumClient.nextMessageId (fst (fst (StratumClient.onLines c lines)))
     = StratumClient.nextMessageId c.
Proof.
  revert c. induction lines as [|line lines IH]; intros c; [by split|].
  cbn [StratumClient.onLines].
  destruct (JSON_parse line) as [payload|]; [|by split].
  pose proof (onPayload_keeps_requests c payload) as [Hr Hn].
  destruct (StratumClient.onPayload c payload) as [[c' e] [| |err]];
    cbn [fst] in Hr, Hn; try (split; assumption).
  specialize (IH c') as [IHr IHn].
  destruct (StratumClient.onLines c' lines) as [[c'' e'] k].
  cbn [fst] in *. split; congruence.
Qed.

Lemma onData_onLines (c : StratumClient.t) (data : Buffer.t) :
  StratumClient.onData c data
  = (fst (fst (StratumClient.onLines c
                 (StratumClient.split 10
                    (StratumClient.trim (Buffer.toString data))))),
     snd (fst (StratumClient.onLines c
                 (StratumClient.split 10
                    (StratumClient.trim (Buffer.toString data))))),
     StratumClient.completionOf
       (snd (StratumClient.onLines c
               (StratumClient.split 10
                  (StratumClient.trim (Buffer.toString data)))))).
Proof.
  unfold StratumClient.onData.
  by destruct (StratumClient.onLines c _) as [[c' e] k].
Qed.

Lemma send_requests (c : StratumClient.t) (m : StratumClient.StratumRequest) :
  StratumClient.requestsSent (fst (StratumClient.send c m))
  = (if StratumClient.connected c
     then <[StratumClient.id m := StratumClient.method m]>
            (StratumClient.requestsSent c)
     else StratumClient.requestsSent c)
  /\ StratumClient.nextMessageId (fst (StratumClient.send c m))
     = StratumClient.nextMessageId c.
Proof.
  unfold StratumClient.send. destruct (StratumClient.connected c); by split.
Qed.

Lemma step_keeps_requests (c c' : StratumClient.t) :
  StratumClient.step c c' ->
  StratumClient.idsBelowNext c ->
  StratumClient.requestsSent c ⊆ StratumClient.requestsSent c'
  /\ StratumClient.idsBelowNext c'.
Proof.
  assert (Hsend : forall (c0 : StratumClient.t) method params,
             StratumClient.idsBelowNext c0 ->
             let m := {| StratumClient.id := StratumClient.nextMessageId c0;
                         StratumClient.method := method;
                         StratumClient.params := params |} in
             let c1 := fst (StratumClient.send
                              (StratumClient.set_nextMessageId c0
                                 (StratumClient.nextMessageId c0 + 1)) m) in
             StratumClient.requestsSent c0 ⊆ StratumClient.requestsSent c1
             /\ StratumClient.idsBelowNext c1).
  { intros c0 method params Hinv m c1. subst c1.
    unfold StratumClient.send. cbn.
    destruct (StratumClient.connected c0); cbn.
    - split.
      + apply insert_subseteq.
        destruct (StratumClient.requestsSent c0 !! StratumClient.nextMessageId c0)
          eqn:E; [|done].
        specialize (Hinv _ (mk_is_Some _ _ E)). lia.
      + intros k Hk. cbn in *.
        destruct (decide (k = StratumClient.nextMessageId c0)) as [->|Hne]; [lia|].
        rewrite lookup_insert_ne in Hk by done.
        specialize (Hinv k Hk). lia.
    - split; [done|]. intros k Hk. specialize (Hinv k Hk). cbn. lia. }
  intros Hstep Hinv.
  destruct Hstep as [c|c|c connected|c|c data|c g|c id r g].
  - unfold StratumClient.start. destruct (StratumClient.started c); by split.
  - by split.
  - unfold StratumClient.startConnecting_resume.
    destruct (StratumClient.started c); [|by split].
    destruct connected; [|by split]. cbn [negb].
    unfold StratumClient.onConnect, StratumClient.subscribe.
    match goal with
    | |- context [StratumClient.send ?a ?m] =>
        pose proof (Hsend (StratumClient.set_connected
                             (StratumClient.set_connectWarned c false) true)
                      "mining.subscribe"%string
                      (JSON.JString (Buffer.toString_hex (StratumClient.graffiti c)))
                      Hinv) as Hs;
        cbn zeta in Hs; cbn in Hs |- *;
        destruct (StratumClient.send a m) as [c1 e1]
    end.
    exact Hs.
  - by split.
  - rewrite onData_onLines. cbn [fst].
    destruct (onLines_keeps_requests
                (StratumClient.split 10
                   (StratumClient.trim (Buffer.toString data))) c) as [Hr Hn].
    split; [by rewrite Hr|].
    intros k Hk. rewrite Hr in Hk. rewrite Hn. by apply Hinv.
  - apply (Hsend c _ _ Hinv).
  - apply (Hsend c _ _ Hinv).
Qed.

Lemma steps_keep_requests (c c' : StratumClient.t) :
  rtc StratumClient.step c c' ->
  StratumClient.idsBelowNext c ->
  StratumClient.requestsSent c ⊆ StratumClient.requestsSent c'
  /\ StratumClient.idsBelowNext c'.
Proof.
  induction 1 as [c|c c1 c' Hstep _ IH]; intros Hinv; [by split|].
  destruct (step_keeps_requests c c1 Hstep Hinv) as [Hsub Hinv1].
  destruct (IH Hinv1) as [Hsub' Hinv'].
  split; [by transitivity (StratumClient.requestsSent c1)|done].
Qed.

(** C7 (amended). An entry of [requestsSent] is made when a request is
    sent on a connected session and is never removed: whatever happens to
    the session afterwards, every entry is still there with its method;
    [onData] and [onDisconnect] leave the map as it is. *)
Theorem requestsSent_entries_persist
    (host : string) (port : Z) (graffiti : Buffer.t) (c c' : StratumClient.t) :
  rtc StratumClient.step (StratumClient.constructor host port graffiti) c ->
  rtc StratumClient.step c c' ->
  StratumClient.requestsSent c ⊆ StratumClient.requestsSent c'
  /\ StratumClient.requestsSent (fst (StratumClient.onDisconnect c))
     = StratumClient.requestsSent c
  /\ (forall data,
        StratumClient.requestsSent (fst (fst (StratumClient.onData c data)))
        = StratumClient.requestsSent c)
  /\ (forall m,
        StratumClient.requestsSent (fst (StratumClient.send c m))
        = if StratumClient.connected c
          then <[StratumClient.id m := StratumClient.method m]>
                 (StratumClient.requestsSent c)
          else StratumClient.requestsSent c).
Proof.
  intros Hreach Hsteps.
  assert (Hinit : StratumClient.idsBelowNext
                    (StratumClient.constructor host port graffiti)).
  { intros k [x Hk]. cbn in Hk. by rewrite lookup_empty in Hk. }
  destruct (steps_keep_requests _ _ Hreach Hinit) as [_ Hinv].
  destruct (steps_keep_requests _ _ Hsteps Hinv) as [Hsub _].
  split; [exact Hsub|]. split; [reflexivity|]. split.
  - intros data. rewrite onData_onLines. apply onLines_keeps_requests.
  - intros m. apply send_requests.
Qed.

(** ** Messages that are dropped *)

Lemma onPayload_drops (c : StratumClient.t) (payload : JSON.t) :
  StratumClient.unrecognizedMethod payload || StratumClient.malformedEnvelope payload
  = true ->
  exists message,
    StratumClient.onPayload c payload
    = (c, [StratumClient.Log Info message], StratumClient.Next).
Proof.
  unfold StratumClient.unrecognizedMethod, StratumClient.malformedEnvelope,
    StratumClient.isKnownMethod, StratumClient.notNull, StratumClient.onPayload.
  intros Hc.
  destruct payload; cbn in Hc |- *; try discriminate; try (eexists; reflexivity).
  destruct (JSON.assoc "method" fields) as [[| | |m| |]|]; cbn in Hc |- *;
    try (eexists; reflexivity).
  - destruct (JSON.notNullish (JSON.assoc "id" fields)); [discriminate|].
    eexists; reflexivity.
  - destruct (String.eqb m "mining.set_target"); [discriminate|].
    destruct (String.eqb m "mining.notify"); [discriminate|].
    destruct (String.eqb m "mining.wait_for_work"); [discriminate|].
    eexists; reflexivity.
  - destruct (JSON.notNullish (JSON.assoc "id" fields)); [discriminate|].
    eexists; reflexivity.
Qed.

(** ** The liveness flag *)

Lemma onPayload_keeps_started (c : StratumClient.t) (payload : JSON.t) :
  StratumClient.started (fst (fst (StratumClient.onPayload c payload)))
  = StratumClient.started c.
Proof.
  unfold StratumClient.onPayload. repeat case_match; reflexivity.
Qed.

Lemma onLines_keeps_started (lines : list (list Z)) (c : StratumClient.t) :
  StratumClient.started (fst (fst (StratumClient.onLines c lines)))
  = StratumClient.started c.
Proof.
  revert c. induction lines as [|line lines IH]; intros c; [done|].
  cbn [StratumClient.onLines].
  destruct (JSON_parse line) as [payload|]; [|done].
  pose proof (onPayload_keeps_started c payload) as Hs.
  destruct (StratumClient.onPayload c payload) as [[c' e] [| |err]];
    cbn [fst] in Hs; try assumption.
  specialize (IH c').
  destruct (StratumClient.onLines c' lines) as [[c'' e'] k].
  cbn [fst] in *. congruence.
Qed.

(** Nothing in the session ever clears [started]: once [start()] has run,
    the check [if (!this.started) return] of [startConnecting] never
    succeeds, whatever was called in between, [stop()] included. *)
Lemma client_started_never_cleared (c c' : StratumClient.t) :
  rtc StratumClient.step c c' ->
  StratumClient.started c = true ->
  StratumClient.started c' = true.
Proof.
  induction 1 as [c|c c1 c' Hstep _ IH]; intros Hs; [exact Hs|].
  apply IH. clear IH.
  destruct Hstep as [c|c|c connected|c|c data|c g|c id r g].
  - unfold StratumClient.start. rewrite Hs. exact Hs.
  - exact Hs.
  - unfold StratumClient.startConnecting_resume, StratumClient.onConnect,
      StratumClient.subscribe, StratumClient.send.
    rewrite Hs. destruct connected; cbn; exact Hs.
  - exact Hs.
  - rewrite onData_onLines. cbn [fst]. by rewrite onLines_keeps_started.
  - unfold StratumClient.subscribe, StratumClient.send. cbn.
    destruct (StratumClient.connected c); exact Hs.
  - unfold StratumClient.submit, StratumClient.send. cbn.
    destruct (StratumClient.connected c); exact Hs.
Qed.

(** ** Messages that are dropped, continued *)

Lemma onLines_app (pre post : list (list Z)) (c : StratumClient.t) :
  StratumClient.onLines c (pre ++ post)
  = match StratumClient.onLines c pre with
    | (c1, e1, StratumClient.Next) =>
        (fst (fst (StratumClient.onLines c1 post)),
         e1 ++ snd (fst (StratumClient.onLines c1 post)),
         snd (StratumClient.onLines c1 post))
    | stopped => stopped
    end.
Proof.
  revert c. induction pre as [|line pre IH]; intros c.
  - cbn. by destruct (StratumClient.onLines c post) as [[c' e'] k].
  - cbn [app StratumClient.onLines].
    destruct (JSON_parse line) as [payload|]; [|reflexivity].
    destruct (StratumClient.onPayload c payload) as [[c' e] [| |err]];
      try reflexivity.
    rewrite IH.
    destruct (StratumClient.onLines c' pre) as [[c1 e1] [| |err]];
      try reflexivity.
    cbn [fst snd]. by rewrite app_assoc.
Qed.

(** The same at any line of the chunk. *)
Lemma onLines_drops_unrecognized
    (c : StratumClient.t) (line : list Z) (rest : list (list Z)) (payload : JSON.t) :
  JSON_parse line = Some payload ->
  StratumClient.unrecognizedMethod payload
  || StratumClient.malformedEnvelope payload = true ->
  exists message,
    StratumClient.onLines c (line :: rest)
    = (fst (fst (StratumClient.onLines c rest)),
       StratumClient.Log Info message :: snd (fst (StratumClient.onLines c rest)),
       snd (StratumClient.onLines c rest)).
Proof.
  intros Hp Hc. cbn [StratumClient.onLines]. rewrite Hp.
  destruct (onPayload_drops c payload Hc) as [message ->].
  exists message.
  destruct (StratumClient.onLines c rest) as [[c' e'] k]. reflexivity.
Qed.

(** C8 (amended). When the loop of [onData] has run through the lines
    [pre] of a chunk and comes to a message with an unrecognized method or to
    a malformed envelope, it logs one line, leaves the session as it is and
    goes on with the lines [post] that follow; when it comes to a line that
    is not JSON, the exception of [JSON.parse] leaves [onData]: nothing is
    logged for the line and the lines that follow are not looked at. *)
Theorem onData_drops_unrecognized
    (c c1 : StratumClient.t) (data : Buffer.t) (pre post : list (list Z))
    (line : list Z) (e1 : list StratumClient.effect) :
  StratumClient.split 10 (StratumClient.trim (Buffer.toString data))
  = pre ++ line :: post ->
  StratumClient.onLines c pre = (c1, e1, StratumClient.Next) ->
  (JSON_parse line = None ->
   StratumClient.onData c data = (c1, e1, Throw "SyntaxError"))
  /\ (forall payload,
        JSON_parse line = Some payload ->
        StratumClient.unrecognizedMethod payload
        || StratumClient.malformedEnvelope payload = true ->
        exists message,
          StratumClient.onData c data
          = (fst (fst (StratumClient.onLines c1 post)),
             e1 ++ StratumClient.Log Info message
                   :: snd (fst (StratumClient.onLines c1 post)),
             StratumClient.completionOf (snd (StratumClient.onLines c1 post)))).
Proof.
  intros Hsplit Hpre. rewrite onData_onLines, Hsplit, onLines_app, Hpre.
  cbn [fst snd]. split.
  - intros Hp. cbn [StratumClient.onLines]. rewrite Hp. cbn.
    by rewrite app_nil_r.
  - intros payload Hp Hc.
    destruct (onLines_drops_unrecognized c1 line post payload Hp Hc)
      as [message ->].
    exists message. reflexivity.
Qed.

(** A response that matches no request ends [onData] at once: the lines
    after it are not looked at. *)
Lemma onLines_unmatched_response_returns
    (c : StratumClient.t) (line : list Z) (rest : list (list Z)) (payload : JSON.t) :
  JSON_parse line = Some payload ->
  StratumClient.unmatchedResponse c payload = true ->
  StratumClient.onLines c (line :: rest)
  = (c, [StratumClient.Log Info "unrecognized response received"],
     StratumClient.Return).
Proof.
  intros Hp Hc. cbn [StratumClient.onLines]. rewrite Hp.
  unfold StratumClient.unmatchedResponse, StratumClient.notNull in Hc.
  unfold StratumClient.onPayload.
  destruct payload; cbn in Hc |- *; try discriminate.
  destruct (JSON.notNullish (JSON.assoc "method" fields)); [discriminate|].
  destruct (JSON.notNullish (JSON.assoc "id" fields)); [|discriminate].
  cbn in Hc.
  destruct (JSON.assoc "id" fields) as [[| |n| | |]|]; try reflexivity.
  destruct (StratumClient.requestsSent c !! n) eqn:E; [|reflexivity].
  rewrite bool_decide_eq_true_2 in Hc by eauto. discriminate.
Qed.

End ClientProperties.

(** ** The connect loops *)

Lemma pool_count_app (f : MiningPool.effect -> bool) (a b : list MiningPool.effect) :
  MiningPool.count f (a ++ b) = (MiningPool.count f a + MiningPool.count f b)%nat.
Proof. unfold MiningPool.count. by rewrite List.filter_app, length_app. Qed.

Lemma client_count_app (f : StratumClient.effect -> bool)
    (a b : list StratumClient.effect) :
  StratumClient.count f (a ++ b)
  = (StratumClient.count f a + StratumClient.count f b)%nat.
Proof. unfold StratumClient.count. by rewrite List.filter_app, length_app. Qed.

(** What a run of the worker's loop does and logs, whether or not a
    warning is already out. *)
Lemma client_connectStreak (n : nat) (c : StratumClient.t) :
  StratumClient.started c = true ->
  let r := StratumClient.connectStreak n c in
  StratumClient.count StratumClient.isFailureWarning (snd r)
  = (if StratumClient.connectWarned c then 0 else Nat.min n 1)%nat
  /\ StratumClient.count StratumClient.isTimer (snd r) = n
  /\ StratumClient.count (StratumClient.isRetryTimer 5000) (snd r) = n
  /\ StratumClient.count StratumClient.isConnectAttempt (snd r) = n
  /\ StratumClient.count StratumClient.isConnectedTransition (snd r) = 1%nat
  /\ StratumClient.started (fst r) = true
  /\ StratumClient.connected (fst r) = true
  /\ StratumClient.connectWarned (fst r) = false.
Proof.
  revert c. induction n as [|n IH]; intros c Hs r; subst r.
  - cbn [StratumClient.connectStreak].
    unfold StratumClient.startConnecting_resume, StratumClient.onConnect,
      StratumClient.subscribe, StratumClient.send.
    rewrite Hs. cbn. destruct (StratumClient.connectWarned c); repeat split; done.
  - cbn [StratumClient.connectStreak].
    destruct (StratumClient.startConnecting_resume c false) as [c1 e1] eqn:E.
    unfold StratumClient.startConnecting_resume in E. rewrite Hs in E.
    cbn [negb] in E. injection E as <- <-.
    set (c1 := StratumClient.set_connectTimeout _ _).
    specialize (IH c1 Hs). cbn zeta in IH.
    destruct (StratumClient.connectStreak n c1) as [c2 e3].
    cbn [fst snd] in IH |- *.
    destruct IH as (Hw & Ht & Hr & Ha & Hc & Hs2 & Hco & Hcw).
    rewrite !client_count_app, Hw, Ht, Hr, Ha, Hc.
    destruct (StratumClient.connectWarned c); cbn; repeat split; try done; lia.
Qed.

(** The same for the pool's loop to the node. *)
Lemma pool_connectStreak (n : nat) (p : MiningPool.t) :
  MiningPool.started p = true ->
  let r := MiningPool.connectStreak n p in
  MiningPool.count MiningPool.isFailureWarning (snd r)
  = (if MiningPool.connectWarned p then 0 else Nat.min n 1)%nat
  /\ MiningPool.count MiningPool.isTimer (snd r) = n
  /\ MiningPool.count (MiningPool.isRetryTimer 5000) (snd r) = n
  /\ MiningPool.count MiningPool.isConnectAttempt (snd r) = n
  /\ MiningPool.count MiningPool.isConnectedTransition (snd r) = 1%nat
  /\ MiningPool.started (fst r) = true
  /\ MiningPool.connectWarned (fst r) = false.
Proof.
  revert p. induction n as [|n IH]; intros p Hs r; subst r.
  - cbn [MiningPool.connectStreak].
    unfold MiningPool.startConnectingRpc_resume.
    rewrite Hs. cbn. destruct (MiningPool.connectWarned p); repeat split; done.
  - cbn [MiningPool.connectStreak].
    destruct (MiningPool.startConnectingRpc_resume p false) as [p1 e1] eqn:E.
    unfold MiningPool.startConnectingRpc_resume in E. rewrite Hs in E.
    cbn [negb] in E. injection E as <- <-.
    set (p1 := MiningPool.set_connection _ _ _ _).
    specialize (IH p1 eq_refl). cbn zeta in IH.
    destruct (MiningPool.connectStreak n p1) as [p2 e3].
    cbn [fst snd] in IH |- *.
    destruct IH as (Hw & Ht & Hr & Ha & Hc & Hs2 & Hcw).
    rewrite !pool_count_app, Hw, Ht, Hr, Ha, Hc.
    destruct (MiningPool.connectWarned p); cbn; repeat split; try done; lia.
Qed.

(** C9. A run of either connect loop made of [n + 1] failures and a
    success logs one warning, sets [n + 1] timers, each of 5000 ms, makes
    one connected transition and leaves the warned flag cleared, so that
    the next run of failures warns once again. *)
Theorem connect_loop_warns_once
    (n m : nat) (c : StratumClient.t) (p : MiningPool.t) :
  StratumClient.started c = true ->
  StratumClient.connectWarned c = false ->
  MiningPool.started p = true ->
  MiningPool.connectWarned p = false ->
  let rc := StratumClient.connectStreak (S n) c in
  let rp := MiningPool.connectStreak (S n) p in
  (StratumClient.count StratumClient.isFailureWarning
     (snd (StratumClient.startConnecting_resume c false)) = 1%nat
   /\ StratumClient.count StratumClient.isFailureWarning (snd rc) = 1%nat
   /\ StratumClient.count StratumClient.isTimer (snd rc) = S n
   /\ StratumClient.count (StratumClient.isRetryTimer 5000) (snd rc) = S n
   /\ StratumClient.count StratumClient.isConnectedTransition (snd rc) = 1%nat
   /\ StratumClient.connected (fst rc) = true
   /\ StratumClient.connectWarned (fst rc) = false
   /\ StratumClient.count StratumClient.isFailureWarning
        (snd (StratumClient.connectStreak (S m)
                (fst (StratumClient.onDisconnect (fst rc))))) = 1%nat)
  /\ (MiningPool.count MiningPool.isFailureWarning
        (snd (MiningPool.startConnectingRpc_resume p false)) = 1%nat
      /\ MiningPool.count MiningPool.isFailureWarning (snd rp) = 1%nat
      /\ MiningPool.count MiningPool.isTimer (snd rp) = S n
      /\ MiningPool.count (MiningPool.isRetryTimer 5000) (snd rp) = S n
      /\ MiningPool.count MiningPool.isConnectedTransition (snd rp) = 1%nat
      /\ MiningPool.connectWarned (fst rp) = false
      /\ MiningPool.count MiningPool.isFailureWarning
           (snd (MiningPool.connectStreak (S m) (fst rp))) = 1%nat).
Proof.
  intros Hcs Hcw Hps Hpw rc rp. subst rc rp. split.
  - pose proof (client_connectStreak (S n) c Hcs) as Hfirst.
    cbn zeta in Hfirst.
    destruct Hfirst as (Hw & Ht & Hr & _ & Hc & Hs' & Hco & Hw').
    rewrite Hcw in Hw. replace (S n `min` 1)%nat with 1%nat in Hw by lia.
    split.
    { unfold StratumClient.startConnecting_resume. rewrite Hcs, Hcw. reflexivity. }
    repeat (split; [assumption|]).
    pose proof (client_connectStreak (S m)
                  (fst (StratumClient.onDisconnect
                          (fst (StratumClient.connectStreak (S n) c)))) Hs')
      as Hsecond.
    cbn zeta in Hsecond. destruct Hsecond as (Hw2 & _).
    rewrite Hw2.
    replace (S m `min` 1)%nat with 1%nat by lia.
    change (StratumClient.connectWarned
              (fst (StratumClient.onDisconnect
                      (fst (StratumClient.connectStreak (S n) c)))))
      with (StratumClient.connectWarned
              (fst (StratumClient.connectStreak (S n) c))).
    rewrite Hw'. reflexivity.
  - pose proof (pool_connectStreak (S n) p Hps) as Hfirst.
    cbn zeta in Hfirst.
    destruct Hfirst as (Hw & Ht & Hr & _ & Hc & Hs' & Hw').
    rewrite Hpw in Hw. replace (S n `min` 1)%nat with 1%nat in Hw by lia.
    split.
    { unfold MiningPool.startConnectingRpc_resume. rewrite Hps, Hpw. reflexivity. }
    repeat (split; [assumption|]).
    pose proof (pool_connectStreak (S m)
                  (fst (MiningPool.connectStreak (S n) p)) Hs') as Hsecond.
    cbn zeta in Hsecond. destruct Hsecond as (Hw2 & _).
    rewrite Hw2, Hw'. lia.
Qed.

Lemma connect_loop_warns_once_witness :
  let c := fst (StratumClient.start Sample.client) in
  let p := fst (MiningPool.start MiningPool.constructor) in
  StratumClient.count StratumClient.isFailureWarning
    (snd (StratumClient.connectStreak 3 c)) = 1%nat
  /\ StratumClient.count (StratumClient.isRetryTimer 5000)
       (snd (StratumClient.connectStreak 3 c)) = 3%nat
  /\ MiningPool.count MiningPool.isFailureWarning
       (snd (MiningPool.connectStreak 3 p)) = 1%nat
  /\ MiningPool.count (MiningPool.isRetryTimer 5000)
       (snd (MiningPool.connectStreak 3 p)) = 3%nat.
Proof.
  intros c p.
  destruct (connect_loop_warns_once 2 0 c p eq_refl eq_refl eq_refl eq_refl)
    as ((_ & Hw & _ & Hr & _) & (_ & Hpw & _ & Hpr & _)).
  repeat split; assumption.
Defined.

(** ** Stopping *)

(** [StratumClient.stop] ends the socket and changes nothing else. *)
Lemma client_stop_keeps_state (c : StratumClient.t) :
  StratumClient.stop c = (c, [StratumClient.SocketEnd]).
Proof. reflexivity. Qed.

(** [MiningPool.stop] clears [started], and an attempt that resumes
    afterwards does nothing. *)
Lemma pool_stop_cancels_connect_loop (p : MiningPool.t) (connected : bool) :
  MiningPool.started p = true ->
  MiningPool.started (fst (MiningPool.stop p)) = false
  /\ MiningPool.startConnectingRpc_resume (fst (MiningPool.stop p)) connected
     = (fst (MiningPool.stop p), []).
Proof.
  intros Hs. unfold MiningPool.stop. rewrite Hs. cbn. split; reflexivity.
Qed.

(** C6 (the code at the failing input). The session is started, the first
    attempt fails and a retry is scheduled; [stop()] is called; the timer
    fires.  [started] is still set, a new connection is asked for, and when
    it succeeds the session goes on to connect and subscribe. *)
Theorem client_stop_leaves_connect_loop_running :
  let c1 := fst (StratumClient.start Sample.client) in
  let c2 := fst (StratumClient.startConnecting_resume c1 false) in
  let c3 := fst (StratumClient.stop c2) in
  let fired := StratumClient.startConnecting_call c3 in
  let r := StratumClient.startConnecting_resume c3 true in
  StratumClient.connectTimeout c2 = Some StratumClient.Token
  /\ StratumClient.started c3 = true
  /\ fired = [StratumClient.SocketOn "error"; StratumClient.SocketOn "connect";
              StratumClient.SocketConnect 9034 "pool.example"]
  /\ StratumClient.count StratumClient.isConnectAttempt fired = 1%nat
  /\ StratumClient.connected (fst r) = true
  /\ StratumClient.count StratumClient.isConnectedTransition (snd r) = 1%nat.
Proof. vm_compute. repeat split. Qed.

(** An attempt in flight when [stop()] is called: its failure schedules a
    retry all the same. *)
Lemma client_stop_in_flight_attempt_not_cancelled :
  let c1 := fst (StratumClient.start Sample.client) in
  let c2 := fst (StratumClient.stop c1) in
  StratumClient.count StratumClient.isTimer
    (snd (StratumClient.startConnecting_resume c2 false)) = 1%nat
  /\ StratumClient.connected
       (fst (StratumClient.startConnecting_resume c2 true)) = true.
Proof. vm_compute. split; reflexivity. Qed.

(** ** The session on concrete chunks *)

(** C7 (counterexample). The entry of the subscribe request is still in
    the map after its response has come, after the connection is lost, and
    after the session has connected again. *)
Lemma requestsSent_survives_reset :
  let c0 := Sample.connectedClient in
  let c1 := fst (fst (@StratumClient.onData Sample.platform c0
                        (Sample.chunk [Sample.lineSubscribed]))) in
  let c2 := fst (StratumClient.onDisconnect c1) in
  let c3 := fst (StratumClient.startConnecting_resume c2 true) in
  StratumClient.requestsSent c0 !! 0 = Some "mining.subscribe"%string
  /\ StratumClient.graffiti c1 = [xbe; xef]
  /\ StratumClient.requestsSent c1 !! 0 = Some "mining.subscribe"%string
  /\ StratumClient.connected c2 = false
  /\ StratumClient.requestsSent c2 !! 0 = Some "mining.subscribe"%string
  /\ StratumClient.requestsSent c2 <> ∅
  /\ StratumClient.connected c3 = true
  /\ StratumClient.requestsSent c3 !! 0 = Some "mining.subscribe"%string.
Proof.
  vm_compute. repeat split; try reflexivity. discriminate.
Qed.

Lemma requestsSent_entries_persist_witness :
  let c := Sample.connectedClient in
  let c' := fst (StratumClient.startConnecting_resume
                   (fst (StratumClient.onDisconnect c)) true) in
  StratumClient.requestsSent c ⊆ StratumClient.requestsSent c'.
Proof.
  intros c c'.
  refine (proj1 (@requestsSent_entries_persist Sample.platform
                   "pool.example" 9034 Sample.miner c c' _ _)).
  - eapply rtc_l; [apply StratumClient.step_start|].
    eapply rtc_l; [apply (StratumClient.step_connect _ true)|].
    apply rtc_refl.
  - eapply rtc_l; [apply StratumClient.step_disconnect|].
    eapply rtc_l; [apply (StratumClient.step_connect _ true)|].
    apply rtc_refl.
Defined.

(** C8 (counterexample). A line that is not JSON, followed by a
    [mining.set_target]: [onData] ends with the [SyntaxError], nothing is
    logged and the target is not passed to the miner; without the first
    line it is. *)
Lemma onData_parse_error_not_contained :
  @StratumClient.onData Sample.platform Sample.connectedClient
    (Sample.chunk [Sample.lineGarbage; Sample.lineSetTarget])
  = (Sample.connectedClient, [], Throw "SyntaxError")
  /\ @StratumClient.onData Sample.platform Sample.connectedClient
       (Sample.chunk [Sample.lineSetTarget])
     = (Sample.connectedClient,
        [StratumClient.Log Info "set_target received";
         StratumClient.MinerSetTarget (Some (JSON.JString "00ff"))], Normal).
Proof. split; vm_compute; reflexivity. Qed.

(** A response to a request that was never sent, followed by a
    [mining.set_target]: the response is logged, and the target is not
    passed to the miner. *)
Lemma onData_unmatched_response_drops_rest :
  @StratumClient.onData Sample.platform Sample.connectedClient
    (Sample.chunk [Sample.lineResponse7; Sample.lineSetTarget])
  = (Sample.connectedClient,
     [StratumClient.Log Info "unrecognized response received"], Normal).
Proof. vm_compute. reflexivity. Qed.

Lemma onData_drops_unrecognized_witness :
  (exists message,
     @StratumClient.onData Sample.platform Sample.connectedClient
       (Sample.chunk [Sample.lineSetTarget; Sample.lineUnknownMethod;
                      Sample.lineSetTarget])
     = (Sample.connectedClient,
        [StratumClient.Log Info "set_target received";
         StratumClient.MinerSetTarget (Some (JSON.JString "00ff"));
         StratumClient.Log Info message;
         StratumClient.Log Info "set_target received";
         StratumClient.MinerSetTarget (Some (JSON.JString "00ff"))], Normal))
  /\ @StratumClient.onData Sample.platform Sample.connectedClient
       (Sample.chunk [Sample.lineSetTarget; Sample.lineGarbage;
                      Sample.lineSetTarget])
     = (Sample.connectedClient,
        [StratumClient.Log Info "set_target received";
         StratumClient.MinerSetTarget (Some (JSON.JString "00ff"))],
        Throw "SyntaxError").
Proof.
  split.
  - destruct (proj2 (@onData_drops_unrecognized Sample.platform
                       Sample.connectedClient Sample.connectedClient
                       (Sample.chunk [Sample.lineSetTarget;
                                      Sample.lineUnknownMethod;
                                      Sample.lineSetTarget])
                       [Sample.codes Sample.lineSetTarget]
                       [Sample.codes Sample.lineSetTarget]
                       (Sample.codes Sample.lineUnknownMethod)
                       [StratumClient.Log Info "set_target received";
                        StratumClient.MinerSetTarget (Some (JSON.JString "00ff"))]
                       ltac:(vm_compute; reflexivity)
                       ltac:(vm_compute; reflexivity))
                (JSON.JObject [("method"%string, JSON.JString "mining.bogus")])
                ltac:(vm_compute; reflexivity) ltac:(vm_compute; reflexivity))
      as [message Hm].
    exists message. rewrite Hm. vm_compute. reflexivity.
  - apply (proj1 (@onData_drops_unrecognized Sample.platform
                    Sample.connectedClient Sample.connectedClient
                    (Sample.chunk [Sample.lineSetTarget; Sample.lineGarbage;
                                   Sample.lineSetTarget])
                    [Sample.codes Sample.lineSetTarget]
                    [Sample.codes Sample.lineSetTarget]
                    (Sample.codes Sample.lineGarbage)
                    [StratumClient.Log Info "set_target received";
                     StratumClient.MinerSetTarget (Some (JSON.JString "00ff"))]
                    ltac:(vm_compute; reflexivity)
                    ltac:(vm_compute; reflexivity))).
    vm_compute. reflexivity.
Defined.

(** * Further properties of the share ledger *)

(** X1. A share submitted raises the total count by one and the count of
    its graffiti by one, leaves the count of every other graffiti as it
    was, and is counted since a cutoff exactly when the cutoff is earlier
    than its time; nothing is ever taken out, a share already present
    included. *)
Theorem submitShare_counts
    (s : MiningPoolShares.t) (now : Z) (g g' : string) (id r cutoff : Z) :
  let s' := MiningPoolShares.submitShare now s g id r in
  MiningPoolShares.totalShareCount s' = MiningPoolShares.totalShareCount s + 1
  /\ MiningPoolShares.graffitiShareCount s' g'
     = MiningPoolShares.graffitiShareCount s g'
       + (if String.eqb g g' then 1 else 0)
  /\ MiningPoolShares.totalShareCountSince s' cutoff
     = MiningPoolShares.totalShareCountSince s cutoff
       + (if cutoff <? now then 1 else 0)
  /\ MiningPoolShares.graffitiShareCountSince s' g' cutoff
     = MiningPoolShares.graffitiShareCountSince s g' cutoff
       + (if (cutoff <? now) && String.eqb g g' then 1 else 0).
Proof.
  unfold MiningPoolShares.submitShare, MiningPoolShares.totalShareCount,
    MiningPoolShares.graffitiShareCount, MiningPoolShares.totalShareCountSince,
    MiningPoolShares.graffitiShareCountSince.
  cbn zeta. rewrite !List.filter_app, !length_app. cbn.
  destruct (String.eqb g g'); destruct (cutoff <? now); cbn; lia.
Qed.

(** X2. [hasShare] answers true exactly when the ledger holds a share with
    that graffiti, mining request id and randomness, whatever its time. *)
Theorem hasShare_iff (s : MiningPoolShares.t) (g : string) (id r : Z) :
  MiningPoolShares.hasShare s g id r = true
  <-> exists ts,
        In {| MiningPoolShares.timestamp := ts;
              MiningPoolShares.graffiti := g;
              MiningPoolShares.miningRequestId := id;
              MiningPoolShares.randomness := r |} s.
Proof.
  unfold MiningPoolShares.hasShare.
  set (f := fun el => _).
  split.
  - destruct (List.find f s) as [x|] eqn:E; [|discriminate]. intros _.
    apply List.find_some in E as [Hin Hf]. subst f. cbn in Hf.
    apply andb_true_iff in Hf as [Hf Hg]. apply andb_true_iff in Hf as [Hi Hr].
    apply Z.eqb_eq in Hi, Hr. apply String.eqb_eq in Hg.
    exists (MiningPoolShares.timestamp x). destruct x; cbn in *. by subst.
  - intros [ts Hin].
    destruct (List.find f s) as [x|] eqn:E; [reflexivity|].
    pose proof (List.find_none f s E _ Hin) as Hf. subst f. cbn in Hf.
    rewrite !Z.eqb_refl, String.eqb_refl in Hf. discriminate.
Qed.

Lemma hasShare_submitShare_helper
    (s : MiningPoolShares.t) (now : Z) (g g' : string) (id id' r r' : Z) :
  MiningPoolShares.hasShare (MiningPoolShares.submitShare now s g id r) g' id' r'
  = MiningPoolShares.hasShare s g' id' r'
    || ((id =? id') && (r =? r') && String.eqb g g').
Proof.
  unfold MiningPoolShares.hasShare, MiningPoolShares.submitShare.
  set (f := fun el => _).
  induction s as [|x s IH]; cbn.
  - subst f. cbn. by destruct ((id =? id') && (r =? r') && String.eqb g g').
  - destruct (f x); [reflexivity|exact IH].
Qed.

(** X3. After a share has been submitted [hasShare] finds it, and answers
    for every other triple what it answered before. *)
Theorem hasShare_submitShare
    (s : MiningPoolShares.t) (now : Z) (g g' : string) (id id' r r' : Z) :
  MiningPoolShares.hasShare (MiningPoolShares.submitShare now s g id r) g' id' r'
  = MiningPoolShares.hasShare s g' id' r'
    || ((id =? id') && (r =? r') && String.eqb g g').
Proof. apply hasShare_submitShare_helper. Qed.

Lemma filter_length_weaken {A} (f h : A -> bool) (l : list A) :
  (forall x, f x = true -> h x = true) ->
  (length (List.filter f l) <= length (List.filter h l))%nat.
Proof.
  intros Himp. induction l as [|x l IH]; cbn; [lia|].
  destruct (f x) eqn:Ef.
  - rewrite (Himp x Ef). cbn. lia.
  - destruct (h x); cbn; lia.
Qed.

(** X4. For one ledger, the counts since a cutoff do not grow when the
    cutoff moves later; a count since a cutoff is at most the count without
    one, and a count for one graffiti at most the count for all. *)
Theorem shareCountSince_antimonotone
    (s : MiningPoolShares.t) (g : string) (t1 t2 : Z) :
  t1 <= t2 ->
  MiningPoolShares.totalShareCountSince s t2
  <= MiningPoolShares.totalShareCountSince s t1
  <= MiningPoolShares.totalShareCount s
  /\ MiningPoolShares.graffitiShareCountSince s g t2
     <= MiningPoolShares.graffitiShareCountSince s g t1
     <= MiningPoolShares.graffitiShareCount s g
  /\ MiningPoolShares.graffitiShareCountSince s g t1
     <= MiningPoolShares.totalShareCountSince s t1
  /\ MiningPoolShares.graffitiShareCount s g
     <= MiningPoolShares.totalShareCount s.
Proof.
  intros Hle.
  unfold MiningPoolShares.totalShareCountSince, MiningPoolShares.totalShareCount,
    MiningPoolShares.graffitiShareCountSince, MiningPoolShares.graffitiShareCount.
  repeat split; apply Nat2Z.inj_le;
    try apply List.filter_length_le;
    apply filter_length_weaken; intros x Hx;
    repeat match goal with
           | H : _ && _ = true |- _ => apply andb_true_iff in H as [? ?]
           end;
    try assumption;
    try (apply andb_true_iff; split; try assumption);
    apply Z.ltb_lt; match goal with H : (_ <? _) = true |- _ => apply Z.ltb_lt in H end;
    lia.
Qed.

Lemma shareCountSince_antimonotone_witness :
  MiningPoolShares.totalShareCountSince Sample.ledger 60000
  <= MiningPoolShares.totalShareCountSince Sample.ledger 40000
  <= MiningPoolShares.totalShareCount Sample.ledger.
Proof.
  exact (proj1 (shareCountSince_antimonotone Sample.ledger "58" 40000 60000
                  ltac:(lia))).
Defined.

(** X5. On the ledger kept in a database, any run of submissions leaves
    the same array as on the ledger kept in memory only, and asks the
    database for one insertion per submission, in order, with the graffiti
    of the submission as the payout address. *)
Theorem submitAll_mirrors_memory
    (subs : list MiningPoolSharesDb.Submission) (s : MiningPoolSharesDb.t) :
  fst (MiningPoolSharesDb.submitAll subs s)
  = MiningPoolSharesDb.submitAllInMemory subs s
  /\ snd (MiningPoolSharesDb.submitAll subs s)
     = map (fun x => MiningPoolSharesDb.DbRun
                       "INSERT INTO share (payout_address) VALUES ?"
                       (MiningPoolSharesDb.graffiti x)) subs
  /\ MiningPoolSharesDb.totalShareCount (fst (MiningPoolSharesDb.submitAll subs s))
     = MiningPoolSharesDb.totalShareCount s + Z.of_nat (length subs).
Proof.
  revert s. induction subs as [|x subs IH]; intros s.
  - cbn. unfold MiningPoolSharesDb.totalShareCount. repeat split. lia.
  - cbn [MiningPoolSharesDb.submitAll MiningPoolSharesDb.submitAllInMemory map].
    unfold MiningPoolSharesDb.submitShare, MiningPoolShares.submitShare,
      MiningPoolSharesDb.newShare.
    specialize (IH (s ++ [ {| MiningPoolShares.timestamp := MiningPoolSharesDb.at_ x;
                              MiningPoolShares.graffiti := MiningPoolSharesDb.graffiti x;
                              MiningPoolShares.miningRequestId :=
                                MiningPoolSharesDb.miningRequestId x;
                              MiningPoolShares.randomness :=
                                MiningPoolSharesDb.randomness x |} ])).
    destruct (MiningPoolSharesDb.submitAll subs _) as [s2 e2].
    cbn [fst snd app] in IH |- *. destruct IH as (IH1 & IH2 & IH3).
    split; [exact IH1|]. split; [by rewrite IH2|].
    rewrite IH3. unfold MiningPoolSharesDb.totalShareCount.
    rewrite length_app. cbn. lia.
Qed.

(** * Further properties of the comparison of hashes *)

Lemma byteZ_range (x : byte) : 0 <= Buffer.byteZ x < 256.
Proof. destruct x; vm_compute; split; congruence. Qed.

Lemma stringLt_irrefl (x : list Z) : Buffer.stringLt x x = false.
Proof.
  induction x as [|a x IH]; [reflexivity|]. cbn. by rewrite Z.ltb_irrefl.
Qed.

Lemma toString_ascii (a : Buffer.t) :
  Forall (fun x => Buffer.byteZ x < 128) a ->
  Buffer.toString a = map Buffer.byteZ a.
Proof.
  unfold Buffer.toString. induction 1 as [|x a Hx _ IH]; [reflexivity|].
  cbn [map Buffer.utf8Decode]. unfold Buffer.lead.
  replace (Buffer.byteZ x <=? 127) with true by (symmetry; apply Z.leb_le; lia).
  cbn [app map concat]. rewrite IH. unfold Buffer.codeUnits.
  replace (Buffer.byteZ x <? 65536) with true by (symmetry; apply Z.ltb_lt; lia).
  reflexivity.
Qed.

Lemma toBigIntAcc_compare (a b : Buffer.t) (acc1 acc2 : Z) :
  length a = length b ->
  (Buffer.toBigIntAcc acc1 a <? Buffer.toBigIntAcc acc2 b)
  = if acc1 <? acc2 then true
    else if acc2 <? acc1 then false
    else Buffer.stringLt (map Buffer.byteZ a) (map Buffer.byteZ b).
Proof.
  revert b acc1 acc2. induction a as [|x a IH]; intros [|y b] acc1 acc2 Hlen;
    try discriminate.
  - cbn. destruct (acc1 <? acc2) eqn:E1; [reflexivity|].
    destruct (acc2 <? acc1); reflexivity.
  - cbn [Buffer.toBigIntAcc map Buffer.stringLt].
    rewrite (IH b) by (cbn in Hlen; lia).
    pose proof (byteZ_range x). pose proof (byteZ_range y).
    destruct (acc1 <? acc2) eqn:E1; [apply Z.ltb_lt in E1|apply Z.ltb_ge in E1].
    { replace (_ <? _) with true by (symmetry; apply Z.ltb_lt; lia). reflexivity. }
    destruct (acc2 <? acc1) eqn:E2; [apply Z.ltb_lt in E2|apply Z.ltb_ge in E2].
    { replace (acc1 * 256 + Buffer.byteZ x <? acc2 * 256 + Buffer.byteZ y)
        with false by (symmetry; apply Z.ltb_ge; lia).
      replace (acc2 * 256 + Buffer.byteZ y <? acc1 * 256 + Buffer.byteZ x)
        with true by (symmetry; apply Z.ltb_lt; lia).
      reflexivity. }
    assert (acc1 = acc2) by lia. subst acc2.
    destruct (Buffer.byteZ x <? Buffer.byteZ y) eqn:E3;
      [apply Z.ltb_lt in E3|apply Z.ltb_ge in E3].
    { replace (_ <? _) with true by (symmetry; apply Z.ltb_lt; lia). reflexivity. }
    replace (acc1 * 256 + Buffer.byteZ x <? acc1 * 256 + Buffer.byteZ y)
      with false by (symmetry; apply Z.ltb_ge; lia).
    destruct (Buffer.byteZ y <? Buffer.byteZ x) eqn:E4;
      [apply Z.ltb_lt in E4|apply Z.ltb_ge in E4].
    { replace (_ <? _) with true by (symmetry; apply Z.ltb_lt; lia). reflexivity. }
    replace (acc1 * 256 + Buffer.byteZ y <? acc1 * 256 + Buffer.byteZ x)
      with false by (symmetry; apply Z.ltb_ge; lia).
    reflexivity.
Qed.

(** X6. On two buffers of the same length whose bytes are all below 0x80,
    [<] answers what the comparison of the two numbers answers: the
    comparison used for the targets is numeric as long as no byte of either
    side has its high bit set. *)
Theorem lt_numeric_on_ascii (a b : Buffer.t) :
  length a = length b ->
  Forall (fun x => Buffer.byteZ x < 128) a ->
  Forall (fun x => Buffer.byteZ x < 128) b ->
  Buffer.lt a b = Buffer.numericLt a b.
Proof.
  intros Hlen Ha Hb. unfold Buffer.lt, Buffer.numericLt, Buffer.toBigInt.
  rewrite (toString_ascii a Ha), (toString_ascii b Hb).
  rewrite (toBigIntAcc_compare a b 0 0 Hlen). reflexivity.
Qed.

Lemma lt_numeric_on_ascii_witness :
  Buffer.lt [x00; x00; x03; x7f] [x00; x00; x04; x10] = true
  /\ Buffer.numericLt [x00; x00; x03; x7f] [x00; x00; x04; x10] = true.
Proof.
  assert (E : Buffer.lt [x00; x00; x03; x7f] [x00; x00; x04; x10]
              = Buffer.numericLt [x00; x00; x03; x7f] [x00; x00; x04; x10]).
  { apply lt_numeric_on_ascii; [reflexivity| |];
      repeat constructor. }
  split; [rewrite E|]; reflexivity.
Defined.

(** * Further properties of the pool orchestrator *)
Section PoolExtras.
Context `{Primitives}.

Lemma steps_reachable (p : MiningPool.t) :
  rtc MiningPool.step MiningPool.constructor p -> MiningPool.reachable p.
Proof.
  intros Hsteps.
  apply (rtc_ind_r (R := MiningPool.step)
           (fun q => MiningPool.reachable q) MiningPool.constructor);
    [constructor| |exact Hsteps].
  intros y z _ Hstep IH. destruct Hstep; by constructor.
Qed.

Lemma distribute_wellFormed (p : MiningPool.t) (l : MiningPool.loc)
    (b : BlockTemplate.t) :
  0 <= MiningPool.nextMiningRequestId p ->
  (forall id, is_Some (MiningPool.miningRequestBlocks p !! id) ->
              0 <= id < MiningPool.nextMiningRequestId p) ->
  (forall id, 0 <= id < MiningPool.nextMiningRequestId p ->
              is_Some (MiningPool.getBlock p id)) ->
  is_Some (MiningPool.heap p !! l) ->
  is_Some (MiningPool.currentHeadTimestamp p) ->
  is_Some (MiningPool.currentHeadDifficulty p) ->
  let p' := fst (fst (MiningPool.distributeNewBlock p l b)) in
  MiningPool.wellFormed p'
  /\ MiningPool.miningRequestBlocks p ⊆ MiningPool.miningRequestBlocks p'
  /\ MiningPool.nextMiningRequestId p' = MiningPool.nextMiningRequestId p + 1
  /\ snd (MiningPool.distributeNewBlock p l b) = Normal.
Proof.
  intros Hn Hk Hj [b0 Hl] [ts Hts] [d Hd] p'. subst p'.
  unfold MiningPool.distributeNewBlock. rewrite Hts, Hd. cbn [fst snd].
  split; [|split; [|split; reflexivity]].
  - split; [cbn; lia|]. split; [|split].
    + intros id. cbn.
      destruct (decide (id = MiningPool.nextMiningRequestId p)) as [->|Hne];
        [lia|].
      rewrite lookup_insert_ne by done. intros Hs. specialize (Hk id Hs). lia.
    + intros id Hid. unfold MiningPool.getBlock. cbn in *.
      destruct (decide (id = MiningPool.nextMiningRequestId p)) as [->|Hne].
      * rewrite lookup_insert_eq, Hl. eauto.
      * rewrite lookup_insert_ne by done. apply (Hj id). lia.
    + intros _. cbn. rewrite Hts, Hd. eauto.
  - cbn. apply insert_subseteq.
    destruct (MiningPool.miningRequestBlocks p !! MiningPool.nextMiningRequestId p)
      eqn:E; [|done].
    specialize (Hk _ (mk_is_Some _ _ E)). lia.
Qed.

Lemma step_wellFormed (p p' : MiningPool.t) :
  MiningPool.step p p' ->
  MiningPool.wellFormed p ->
  MiningPool.wellFormed p'
  /\ MiningPool.miningRequestBlocks p ⊆ MiningPool.miningRequestBlocks p'
  /\ MiningPool.nextMiningRequestId p <= MiningPool.nextMiningRequestId p'.
Proof.
  intros Hstep Hwf. pose proof Hwf as (Hn & Hk & Hj & Hh).
  assert (Hsame : MiningPool.wellFormed p
                  /\ MiningPool.miningRequestBlocks p ⊆ MiningPool.miningRequestBlocks p
                  /\ MiningPool.nextMiningRequestId p
                     <= MiningPool.nextMiningRequestId p)
    by (split; [exact Hwf|split; [done|lia]]).
  destruct Hstep as [p|p|p c|p payload|p now|p now client id r g].
  - unfold MiningPool.start. destruct (MiningPool.started p); exact Hsame.
  - unfold MiningPool.stop. destruct (MiningPool.started p); exact Hsame.
  - unfold MiningPool.startConnectingRpc_resume.
    destruct (MiningPool.started p); [|exact Hsame].
    destruct c; exact Hsame.
  - unfold MiningPool.processNewBlock.
    destruct (BlockTemplate.previousBlockInfo payload) as [info|]; [|exact Hsame].
    cbn [MiningPool.restartCalculateTargetInterval].
    match goal with
    | |- context [MiningPool.distributeNewBlock ?q ?l ?b] =>
        pose proof (distribute_wellFormed q l b) as Hd;
        destruct (MiningPool.distributeNewBlock q l b) as [[q' e'] c']
    end.
    cbn [fst snd] in Hd |- *.
    destruct Hd as (Hwf' & Hsub & Hnext & _).
    + exact Hn.
    + exact Hk.
    + intros id Hid. apply (getBlock_store_is_Some p _ payload id (Hj id Hid)).
    + cbn. rewrite lookup_insert_eq. eauto.
    + cbn. eauto.
    + cbn. eauto.
    + split; [exact Hwf'|]. split; [exact Hsub|]. cbn in Hnext. lia.
  - unfold MiningPool.recalculateTarget.
    destruct (MiningPool.currentHeadTimestamp p) as [ts|] eqn:Ets; [|exact Hsame].
    destruct (MiningPool.currentHeadDifficulty p) as [d|] eqn:Ed; [|exact Hsame].
    destruct (MiningPool.getBlock p _) as [[l b]|]; [|exact Hsame].
    match goal with
    | |- context [MiningPool.distributeNewBlock ?q ?l ?b] =>
        pose proof (distribute_wellFormed q l b) as Hd;
        destruct (MiningPool.distributeNewBlock q l b) as [[q' e'] c']
    end.
    cbn [fst snd] in Hd |- *.
    destruct Hd as (Hwf' & Hsub & Hnext & _).
    + exact Hn.
    + exact Hk.
    + intros id Hid. apply (getBlock_store_is_Some p l _ id (Hj id Hid)).
    + cbn. rewrite lookup_insert_eq. eauto.
    + cbn. rewrite Ets. eauto.
    + cbn. rewrite Ed. eauto.
    + split; [exact Hwf'|]. split; [exact Hsub|]. cbn in Hnext. lia.
  - unfold MiningPool.submitWork.
    destruct (negb _); [exact Hsame|].
    destruct (MiningPool.getBlock p id) as [[l b]|]; [|exact Hsame].
    cbn [MiningPool.store MiningPool.target].
    assert (Hst : forall q : MiningPool.t,
               MiningPool.nextMiningRequestId q = MiningPool.nextMiningRequestId p ->
               MiningPool.miningRequestBlocks q = MiningPool.miningRequestBlocks p ->
               MiningPool.currentHeadTimestamp q = MiningPool.currentHeadTimestamp p ->
               MiningPool.currentHeadDifficulty q = MiningPool.currentHeadDifficulty p ->
               (forall id, is_Some (MiningPool.getBlock p id) ->
                           is_Some (MiningPool.getBlock q id)) ->
               MiningPool.wellFormed q
               /\ MiningPool.miningRequestBlocks p ⊆ MiningPool.miningRequestBlocks q
               /\ MiningPool.nextMiningRequestId p
                  <= MiningPool.nextMiningRequestId q).
    { intros q En Eb Et Ed Eg. unfold MiningPool.wellFormed.
      rewrite En, Eb, Et, Ed. repeat split; try lia; try done.
      - apply Hk. assumption.
      - apply Hk. assumption.
      - intros. apply Eg, Hj. lia.
      - by apply Hh.
      - by apply Hh. }
    destruct (Buffer.lt _ (MiningPool.target p)); cbn [fst];
      apply Hst; try reflexivity;
      intros id0 Hs; apply (getBlock_store_is_Some p l _ id0 Hs).
Qed.

Lemma steps_wellFormed (p p' : MiningPool.t) :
  rtc MiningPool.step p p' ->
  MiningPool.wellFormed p ->
  MiningPool.wellFormed p'
  /\ MiningPool.miningRequestBlocks p ⊆ MiningPool.miningRequestBlocks p'
  /\ MiningPool.nextMiningRequestId p <= MiningPool.nextMiningRequestId p'.
Proof.
  induction 1 as [p|p p1 p' Hstep _ IH]; intros Hwf.
  - split; [exact Hwf|split; [done|lia]].
  - destruct (step_wellFormed p p1 Hstep Hwf) as (Hwf1 & Hsub1 & Hn1).
    destruct (IH Hwf1) as (Hwf' & Hsub' & Hn').
    split; [exact Hwf'|]. split; [|lia].
    by transitivity (MiningPool.miningRequestBlocks p1).
Qed.

Lemma constructor_wellFormed : MiningPool.wellFormed MiningPool.constructor.
Proof.
  split; [cbn; lia|]. split; [|split].
  - intros id [x Hx]. cbn in Hx. by rewrite lookup_empty in Hx.
  - cbn. intros; lia.
  - cbn. intros; lia.
Qed.

(** X7. In every state the pool reaches from its construction, the ids in
    [miningRequestBlocks] are exactly 0 up to [nextMiningRequestId - 1],
    each referring to a stored template; the head timestamp and difficulty
    are known as soon as one job has been distributed; and the pool
    difficulty and target are those computed by the constructor. *)
Theorem pool_state_invariant (p : MiningPool.t) :
  rtc MiningPool.step MiningPool.constructor p ->
  MiningPool.wellFormed p /\ MiningPool.targetFixed p.
Proof.
  intros Hsteps. split.
  - apply (steps_wellFormed _ _ Hsteps constructor_wellFormed).
  - apply reachable_invariant, steps_reachable, Hsteps.
Qed.

(** X8. No job is ever removed or moved: whatever the pool does after a
    state it has reached, every id keeps referring to the object it referred
    to, and [nextMiningRequestId] does not decrease. *)
Theorem pool_jobs_never_removed (p p' : MiningPool.t) :
  rtc MiningPool.step MiningPool.constructor p ->
  rtc MiningPool.step p p' ->
  MiningPool.miningRequestBlocks p ⊆ MiningPool.miningRequestBlocks p'
  /\ MiningPool.nextMiningRequestId p <= MiningPool.nextMiningRequestId p'.
Proof.
  intros Hreach Hsteps.
  destruct (steps_wellFormed _ _ Hreach constructor_wellFormed) as (Hwf & _).
  destruct (steps_wellFormed _ _ Hsteps Hwf) as (_ & Hsub & Hn).
  split; assumption.
Qed.

(** X9. Once a job has been distributed the retarget tick never fails an
    assertion: it completes, and the id it broadcasts is the one a
    submission must carry from then on. *)
Theorem recalculateTarget_never_throws (p : MiningPool.t) (now : Z) :
  rtc MiningPool.step MiningPool.constructor p ->
  0 < MiningPool.nextMiningRequestId p ->
  snd (MiningPool.recalculateTarget p now) = Normal
  /\ MiningPool.nextMiningRequestId (fst (fst (MiningPool.recalculateTarget p now)))
     = MiningPool.nextMiningRequestId p + 1
  /\ MiningPool.count (fun e => match e with
                                | MiningPool.StratumNewWork id _ _ _ =>
                                    id =? MiningPool.nextMiningRequestId p
                                | _ => false
                                end)
       (snd (fst (MiningPool.recalculateTarget p now))) = 1%nat.
Proof.
  intros Hreach Hpos.
  destruct (steps_wellFormed _ _ Hreach constructor_wellFormed)
    as ((Hn & Hk & Hj & Hh) & _).
  destruct (Hh Hpos) as [[ts Hts] [d Hd]].
  destruct (Hj (MiningPool.nextMiningRequestId p - 1) ltac:(lia)) as [[l b] Hb].
  unfold MiningPool.recalculateTarget. rewrite Hts, Hd, Hb.
  unfold MiningPool.distributeNewBlock. cbn. rewrite Hts, Hd. cbn.
  rewrite Z.eqb_refl. repeat split.
Qed.

(** X10. The warning for a submission whose job is not stored is logged in
    one case only: no job has been distributed yet and the submission
    carries id -1. *)
Theorem submitWork_invalid_request_only_before_first_job
    (p : MiningPool.t) (now client miningRequestId randomness : Z)
    (graffiti : Buffer.t) :
  rtc MiningPool.step MiningPool.constructor p ->
  MiningPool.count MiningPool.isInvalidRequestWarning
    (snd (MiningPool.submitWork p now client miningRequestId randomness graffiti))
  = if (MiningPool.nextMiningRequestId p =? 0) && (miningRequestId =? -1)
    then 1%nat else 0%nat.
Proof.
  intros Hreach.
  destruct (steps_wellFormed _ _ Hreach constructor_wellFormed)
    as ((Hn & Hk & Hj & Hh) & _).
  unfold MiningPool.submitWork.
  destruct (miningRequestId =? MiningPool.nextMiningRequestId p - 1) eqn:Eid;
    cbn [negb].
  - apply Z.eqb_eq in Eid.
    destruct (MiningPool.getBlock p miningRequestId) as [[l b]|] eqn:Eb.
    + assert (Hin : 0 <= miningRequestId < MiningPool.nextMiningRequestId p).
      { apply Hk. unfold MiningPool.getBlock in Eb.
        destruct (MiningPool.miningRequestBlocks p !! miningRequestId); [eauto|].
        discriminate. }
      replace (MiningPool.nextMiningRequestId p =? 0) with false
        by (symmetry; apply Z.eqb_neq; lia).
      cbn [andb MiningPool.store MiningPool.target].
      destruct (Buffer.lt _ (MiningPool.target p)); destruct (Buffer.lt _ _);
        reflexivity.
    + assert (Hz : MiningPool.nextMiningRequestId p = 0).
      { destruct (decide (0 < MiningPool.nextMiningRequestId p)) as [Hpos|]; [|lia].
        destruct (Hj miningRequestId ltac:(lia)) as [x Hx]. congruence. }
      rewrite Hz in Eid |- *. subst miningRequestId. reflexivity.
  - apply Z.eqb_neq in Eid.
    destruct (MiningPool.nextMiningRequestId p =? 0) eqn:Ez; [|reflexivity].
    apply Z.eqb_eq in Ez.
    replace (miningRequestId =? -1) with false
      by (symmetry; apply Z.eqb_neq; lia).
    reflexivity.
Qed.

(** X11. A template of the stream that carries no previous block
    information fails the assertion and leaves the pool as it was.  One
    that does is stored as a new object under the next id: the jobs already
    stored are what they were, the retarget timer is set anew, the head
    becomes that of the template, and the template is broadcast under its
    id with that head. *)
Theorem processNewBlock_adds_job (p : MiningPool.t) (payload : BlockTemplate.t) :
  let r := MiningPool.processNewBlock p payload in
  let p' := fst (fst r) in
  match BlockTemplate.previousBlockInfo payload with
  | None => r = (p, [], Throw "Assert.isNotUndefined")
  | Some info =>
      let d := Target_toDifficulty (Buffer.from_hex (BlockTemplate.target info)) in
      snd r = Normal
      /\ MiningPool.nextMiningRequestId p' = MiningPool.nextMiningRequestId p + 1
      /\ (exists l, MiningPool.heap p !! l = None
                    /\ MiningPool.getBlock p' (MiningPool.nextMiningRequestId p)
                       = Some (l, payload))
      /\ (forall id x, id <> MiningPool.nextMiningRequestId p ->
                       MiningPool.getBlock p id = Some x ->
                       MiningPool.getBlock p' id = Some x)
      /\ MiningPool.currentHeadTimestamp p' = Some (BlockTemplate.timestamp info)
      /\ MiningPool.currentHeadDifficulty p' = Some d
      /\ snd (fst r)
         = MiningPool.stopCalculateTargetInterval p
           ++ [MiningPool.SetInterval 10000;
               MiningPool.StratumNewWork (MiningPool.nextMiningRequestId p) payload
                 d (BlockTemplate.timestamp info)]
  end.
Proof.
  intros r p'. subst p' r. unfold MiningPool.processNewBlock.
  destruct (BlockTemplate.previousBlockInfo payload) as [info|]; [|reflexivity].
  cbn zeta. unfold MiningPool.restartCalculateTargetInterval,
    MiningPool.distributeNewBlock. cbn.
  set (l := fresh (dom (MiningPool.heap p))).
  assert (Hl : MiningPool.heap p !! l = None).
  { apply not_elem_of_dom. apply is_fresh. }
  split; [reflexivity|]. split; [reflexivity|]. split.
  { exists l. split; [exact Hl|]. unfold MiningPool.getBlock. cbn.
    by rewrite !lookup_insert_eq. }
  split.
  { intros id [l0 b0] Hne Hg. unfold MiningPool.getBlock in *. cbn.
    rewrite lookup_insert_ne by done.
    destruct (MiningPool.miningRequestBlocks p !! id) as [l1|]; [|discriminate].
    destruct (MiningPool.heap p !! l1) as [b1|] eqn:E1; [|discriminate].
    assert (l1 <> l) by congruence.
    rewrite lookup_insert_ne by done. by rewrite E1. }
  split; [reflexivity|]. split; [reflexivity|].
  by rewrite <- app_assoc.
Qed.

Lemma submitWork_current_job
    (p : MiningPool.t) (now client miningRequestId randomness : Z)
    (graffiti : Buffer.t) (l : MiningPool.loc) (b : BlockTemplate.t) :
  miningRequestId = MiningPool.nextMiningRequestId p - 1 ->
  MiningPool.getBlock p miningRequestId = Some (l, b) ->
  let p' :=
    fst (MiningPool.submitWork p now client miningRequestId randomness graffiti) in
  MiningPool.nextMiningRequestId p' = MiningPool.nextMiningRequestId p
  /\ MiningPool.target p' = MiningPool.target p
  /\ MiningPool.getBlock p' miningRequestId
     = Some (l, BlockTemplate.set_header b
                  (Header.set_submission (BlockTemplate.header b)
                     (Buffer.toString_hex graffiti) randomness)).
Proof.
  intros Hid Hjob p'. subst p'. unfold MiningPool.submitWork. rewrite Hjob.
  replace (miningRequestId =? MiningPool.nextMiningRequestId p - 1) with true
    by (symmetry; apply Z.eqb_eq; exact Hid).
  cbn [negb MiningPool.store MiningPool.target].
  assert (Hg : forall q : MiningPool.t,
             MiningPool.miningRequestBlocks q = MiningPool.miningRequestBlocks p ->
             forall b', MiningPool.heap q = <[l := b']> (MiningPool.heap p) ->
             MiningPool.getBlock q miningRequestId = Some (l, b')).
  { intros q Hb b' Hh. unfold MiningPool.getBlock in *. rewrite Hb, Hh.
    destruct (MiningPool.miningRequestBlocks p !! miningRequestId) as [l0|];
      [|discriminate].
    destruct (MiningPool.heap p !! l0); [|discriminate].
    injection Hjob as -> _. by rewrite lookup_insert_eq. }
  destruct (Buffer.lt _ (MiningPool.target p)); cbn [fst];
    (split; [reflexivity|]); (split; [reflexivity|]); by apply Hg.
Qed.

(** X12. Nothing on the way of a submission looks for a share already
    recorded: the same valid submission made twice is recorded twice, though
    [hasShare] finds it after the first time. *)
Theorem submitWork_duplicate_recorded_twice
    (p : MiningPool.t) (now1 now2 client miningRequestId randomness : Z)
    (graffiti : Buffer.t) (l : MiningPool.loc) (b : BlockTemplate.t) :
  miningRequestId = MiningPool.nextMiningRequestId p - 1 ->
  MiningPool.getBlock p miningRequestId = Some (l, b) ->
  Buffer.lt (MiningPool.submissionHash b graffiti randomness) (MiningPool.target p)
  = true ->
  let p1 :=
    fst (MiningPool.submitWork p now1 client miningRequestId randomness graffiti) in
  let p2 :=
    fst (MiningPool.submitWork p1 now2 client miningRequestId randomness graffiti) in
  MiningPoolShares.hasShare (MiningPool.shares p1) (Buffer.toString_hex graffiti)
    miningRequestId randomness = true
  /\ MiningPoolShares.totalShareCount (MiningPool.shares p2)
     = MiningPoolShares.totalShareCount (MiningPool.shares p) + 2
  /\ MiningPoolShares.graffitiShareCount (MiningPool.shares p2)
       (Buffer.toString_hex graffiti)
     = MiningPoolShares.graffitiShareCount (MiningPool.shares p)
         (Buffer.toString_hex graffiti) + 2.
Proof.
  intros Hid Hjob Hlt p1 p2.
  destruct (submitWork_accepted p now1 client miningRequestId randomness graffiti
              l b Hid Hjob) as [Hs1 _].
  cbn zeta in Hs1. rewrite Hlt in Hs1. fold p1 in Hs1.
  destruct (submitWork_current_job p now1 client miningRequestId randomness
              graffiti l b Hid Hjob) as (Hn1 & Ht1 & Hg1).
  cbn zeta in Hn1, Ht1, Hg1. fold p1 in Hn1, Ht1, Hg1.
  assert (Hid1 : miningRequestId = MiningPool.nextMiningRequestId p1 - 1)
    by (rewrite Hn1; exact Hid).
  destruct (submitWork_accepted p1 now2 client miningRequestId randomness graffiti
              l _ Hid1 Hg1) as [Hs2 _].
  cbn zeta in Hs2. fold p2 in Hs2. rewrite Ht1 in Hs2.
  change (MiningPool.submissionHash
            (BlockTemplate.set_header b
               (Header.set_submission (BlockTemplate.header b)
                  (Buffer.toString_hex graffiti) randomness)) graffiti randomness)
    with (MiningPool.submissionHash b graffiti randomness) in Hs2.
  rewrite Hlt in Hs2. rewrite Hs2, Hs1.
  split.
  - rewrite hasShare_submitShare_helper.
    rewrite !Z.eqb_refl, String.eqb_refl. apply orb_true_r.
  - unfold MiningPoolShares.totalShareCount, MiningPoolShares.graffitiShareCount,
      MiningPoolShares.submitShare.
    rewrite !List.filter_app, !length_app. cbn. rewrite String.eqb_refl. cbn.
    split; lia.
Qed.

(** X13. With a difficulty that is not negative, a hashrate is not
    negative, and the hashrate of one miner is at most that of the pool at
    the same time. *)
Theorem graffitiHashrate_le_hashrate (p : MiningPool.t) (now : Z) (graffiti : string) :
  0 <= MiningPool.difficulty p ->
  0 <= MiningPool.graffitiHashrate p now graffiti <= MiningPool.hashrate p now.
Proof.
  intros Hd.
  unfold MiningPool.graffitiHashrate, MiningPool.hashrate, MiningPool.Number,
    MiningPool.HASHRATE_TIME_CUTOFF_SECONDS.
  cbn zeta.
  set (c := now - MiningPool.HASHRATE_TIME_CUTOFF_MILLISECONDS).
  pose proof (count_since_bounds (MiningPool.shares p) graffiti c) as [Hg Ht].
  assert (Hle : MiningPoolShares.graffitiShareCountSince (MiningPool.shares p)
                  graffiti c
                <= MiningPoolShares.totalShareCountSince (MiningPool.shares p) c).
  { unfold MiningPoolShares.graffitiShareCountSince,
      MiningPoolShares.totalShareCountSince.
    apply Nat2Z.inj_le, filter_length_weaken. intros x Hx.
    by apply andb_true_iff in Hx as [? _]. }
  split.
  - apply Z.quot_pos; nia.
  - apply Z.quot_le_mono; nia.
Qed.

Lemma from_hex_toString_hex (b : Buffer.t) :
  Buffer.from_hex (Buffer.toString_hex b) = b.
Proof.
  induction b as [|x b IH]; [reflexivity|].
  cbn [Buffer.toString_hex].
  transitivity (x :: Buffer.from_hex (Buffer.toString_hex b)); [|by rewrite IH].
  generalize (Buffer.toString_hex b). intros rest.
  destruct x; reflexivity.
Qed.

(** X14. After a retarget tick the network target a submission against
    the new current job is compared with, decoded from the hex text the
    tick wrote into the header, is the 32 bytes the tick computed. *)
Theorem recalculateTarget_target_read_back
    (p : MiningPool.t) (now headTimestamp headDifficulty : Z)
    (l : MiningPool.loc) (b : BlockTemplate.t) :
  MiningPool.currentHeadTimestamp p = Some headTimestamp ->
  MiningPool.currentHeadDifficulty p = Some headDifficulty ->
  MiningPool.getBlock p (MiningPool.nextMiningRequestId p - 1) = Some (l, b) ->
  let p' := fst (fst (MiningPool.recalculateTarget p now)) in
  exists b',
    MiningPool.getBlock p' (MiningPool.nextMiningRequestId p' - 1) = Some (l, b')
    /\ Buffer.from_hex (Header.target (BlockTemplate.header b'))
       = BigIntUtils.toBytesBE
           (Target_fromDifficulty
              (Target_calculateDifficulty now headTimestamp headDifficulty)) 32.
Proof.
  intros Hts Hd Hjob p'. subst p'.
  unfold MiningPool.recalculateTarget. rewrite Hts, Hd, Hjob.
  unfold MiningPool.distributeNewBlock.
  cbn [MiningPool.store MiningPool.currentHeadTimestamp
       MiningPool.currentHeadDifficulty MiningPool.nextMiningRequestId].
  rewrite Hts, Hd.
  cbn [fst snd MiningPool.set_jobs MiningPool.nextMiningRequestId].
  eexists. split.
  - unfold MiningPool.getBlock.
    cbn [MiningPool.set_jobs MiningPool.store MiningPool.miningRequestBlocks
         MiningPool.heap].
    replace (MiningPool.nextMiningRequestId p + 1 - 1)
      with (MiningPool.nextMiningRequestId p) by lia.
    rewrite !lookup_insert_eq. reflexivity.
  - cbn [Header.target BlockTemplate.header BlockTemplate.set_header
         Header.set_retarget].
    apply from_hex_toString_hex.
Qed.

(** X15. [start()] and [stop()] do nothing the second time: a pool that is
    started is not started again (no second connect attempt, no second
    listener), and a pool that is stopped, or was never started, is not
    stopped again. *)
Theorem pool_start_stop_idempotent (p : MiningPool.t) :
  MiningPool.start (fst (MiningPool.start p)) = (fst (MiningPool.start p), [])
  /\ MiningPool.stop (fst (MiningPool.stop p)) = (fst (MiningPool.stop p), [])
  /\ MiningPool.started (fst (MiningPool.start p)) = true
  /\ MiningPool.started (fst (MiningPool.stop p)) = false
  /\ MiningPool.count MiningPool.isConnectAttempt (snd (MiningPool.start p))
     = (if MiningPool.started p then 0 else 1)%nat.
Proof.
  unfold MiningPool.start, MiningPool.stop.
  destruct (MiningPool.started p) eqn:E; cbn; rewrite ?E; cbn; repeat split.
Qed.

(** X16. [stop()] on a started pool closes the node connection and the
    listener, clears the retarget interval and the pending retry timer when
    there is one, and clears [started]: a connect attempt that resumes
    afterwards does nothing, whether it succeeded or not. *)
Theorem pool_stop_cancels (p : MiningPool.t) (connected : bool) :
  MiningPool.started p = true ->
  let r := MiningPool.stop p in
  MiningPool.startConnectingRpc_resume (fst r) connected = (fst r, [])
  /\ In MiningPool.RpcClose (snd r)
  /\ In MiningPool.StratumStop (snd r)
  /\ (is_Some (MiningPool.recalculateTargetInterval p) ->
      In MiningPool.ClearInterval (snd r))
  /\ (is_Some (MiningPool.connectTimeout p) -> In MiningPool.ClearTimeout (snd r))
  /\ MiningPool.count MiningPool.isConnectAttempt (snd r) = 0%nat.
Proof.
  intros Hs r. subst r. unfold MiningPool.stop, MiningPool.stopCalculateTargetInterval.
  rewrite Hs. cbn [negb fst snd].
  split; [reflexivity|]. split; [cbn; tauto|]. split; [cbn; tauto|].
  split; [|split].
  - intros [x ->]. cbn. tauto.
  - intros [x ->]. apply in_or_app. right. apply in_or_app. right.
    apply in_or_app. right. cbn. tauto.
  - destruct (MiningPool.recalculateTargetInterval p);
      destruct (MiningPool.connectTimeout p); reflexivity.
Qed.

End PoolExtras.

Lemma sample_pool_reached (hash : Buffer.t) :
  rtc (@MiningPool.step (Sample.primitives hash)) MiningPool.constructor
    (Sample.pool hash).
Proof.
  apply rtc_once. apply (@MiningPool.step_block (Sample.primitives hash)).
Defined.

Lemma pool_state_invariant_witness :
  MiningPool.wellFormed (Sample.pool Sample.shareHash)
  /\ MiningPool.targetFixed (Sample.pool Sample.shareHash).
Proof.
  exact (@pool_state_invariant (Sample.primitives Sample.shareHash) _
           (sample_pool_reached Sample.shareHash)).
Defined.

Lemma pool_jobs_never_removed_witness :
  let P := Sample.primitives Sample.shareHash in
  let p := Sample.pool Sample.shareHash in
  let p' := fst (fst (@MiningPool.recalculateTarget P p 5000)) in
  MiningPool.miningRequestBlocks p ⊆ MiningPool.miningRequestBlocks p'
  /\ MiningPool.nextMiningRequestId p <= MiningPool.nextMiningRequestId p'.
Proof.
  intros P p p'.
  apply (@pool_jobs_never_removed P p p' (sample_pool_reached Sample.shareHash)).
  apply rtc_once. apply (@MiningPool.step_retarget P).
Defined.

Lemma recalculateTarget_never_throws_witness :
  let P := Sample.primitives Sample.shareHash in
  snd (@MiningPool.recalculateTarget P (Sample.pool Sample.shareHash) 5000) = Normal.
Proof.
  intros P.
  exact (proj1 (@recalculateTarget_never_throws P (Sample.pool Sample.shareHash) 5000
                  (sample_pool_reached Sample.shareHash)
                  ltac:(vm_compute; reflexivity))).
Defined.

Lemma submitWork_invalid_request_only_before_first_job_witness :
  let P := Sample.primitives Sample.shareHash in
  MiningPool.count MiningPool.isInvalidRequestWarning
    (snd (@MiningPool.submitWork P MiningPool.constructor 5000 1 (-1) 77 Sample.miner))
  = 1%nat.
Proof.
  intros P.
  exact (@submitWork_invalid_request_only_before_first_job P MiningPool.constructor
           5000 1 (-1) 77 Sample.miner (rtc_refl _ _)).
Defined.

Lemma submitWork_duplicate_recorded_twice_witness :
  let P := Sample.primitives Sample.shareHash in
  let p := Sample.pool Sample.shareHash in
  let p1 := fst (@MiningPool.submitWork P p 5000 1 0 77 Sample.miner) in
  let p2 := fst (@MiningPool.submitWork P p1 6000 1 0 77 Sample.miner) in
  MiningPoolShares.hasShare (MiningPool.shares p1) "abcd" 0 77 = true
  /\ MiningPoolShares.totalShareCount (MiningPool.shares p2) = 2.
Proof.
  intros P p p1 p2.
  destruct (@submitWork_duplicate_recorded_twice P p 5000 6000 1 0 77 Sample.miner
              1%positive Sample.template
              ltac:(vm_compute; reflexivity) ltac:(vm_compute; reflexivity)
              ltac:(vm_compute; reflexivity)) as (Hh & Ht & _).
  split; [exact Hh|exact Ht].
Defined.

Lemma graffitiHashrate_le_hashrate_witness :
  0 <= MiningPool.graffitiHashrate Sample.poolWithShares 100000 "58"
  <= MiningPool.hashrate Sample.poolWithShares 100000.
Proof.
  apply (graffitiHashrate_le_hashrate Sample.poolWithShares 100000 "58").
  vm_compute. discriminate.
Defined.

Lemma recalculateTarget_target_read_back_witness :
  let P := Sample.primitives Sample.shareHash in
  let p' := fst (fst (@MiningPool.recalculateTarget P
                        (Sample.pool Sample.shareHash) 5000)) in
  exists b',
    MiningPool.getBlock p' (MiningPool.nextMiningRequestId p' - 1)
    = Some (1%positive, b')
    /\ Buffer.from_hex (Header.target (BlockTemplate.header b'))
       = BigIntUtils.toBytesBE (Z.quot (2 ^ 256) (2 * 2 ^ 32)) 32.
Proof.
  intros P p'.
  exact (@recalculateTarget_target_read_back P (Sample.pool Sample.shareHash) 5000
           400 (2 ^ 32) 1%positive Sample.template
           ltac:(vm_compute; reflexivity) ltac:(vm_compute; reflexivity)
           ltac:(vm_compute; reflexivity)).
Defined.

Lemma pool_stop_cancels_witness :
  let p := fst (MiningPool.start MiningPool.constructor) in
  MiningPool.startConnectingRpc_resume (fst (MiningPool.stop p)) true
  = (fst (MiningPool.stop p), []).
Proof.
  intros p. exact (proj1 (pool_stop_cancels p true eq_refl)).
Defined.

(** * Further properties of the worker session *)
Section ClientExtras.
Context `{Platform}.

(** X17. Once the session is started, [started] stays set whatever is
    called afterwards, [stop()] included: an attempt that fails then always
    schedules a retry, and one that succeeds always connects. *)
Theorem client_started_is_permanent (c c' : StratumClient.t) :
  rtc StratumClient.step c c' ->
  StratumClient.started c = true ->
  StratumClient.started c' = true
  /\ StratumClient.count StratumClient.isTimer
       (snd (StratumClient.startConnecting_resume c' false)) = 1%nat
  /\ StratumClient.connected
       (fst (StratumClient.startConnecting_resume c' true)) = true.
Proof.
  intros Hsteps Hs.
  pose proof (client_started_never_cleared c c' Hsteps Hs) as Hs'.
  split; [exact Hs'|].
  unfold StratumClient.startConnecting_resume, StratumClient.onConnect,
    StratumClient.subscribe, StratumClient.send.
  rewrite Hs'. cbn. split; [|reflexivity].
  destruct (StratumClient.connectWarned c'); reflexivity.
Qed.

(** X18. [subscribe] and [submit] take the next message id whether or not
    the session is connected.  Connected, they write one message carrying
    that id and record its method under it; not connected, they write
    nothing and record nothing. *)
Theorem requests_sent_only_when_connected
    (c : StratumClient.t) (miningRequestId randomness : Z) (graffiti : Buffer.t) :
  let sub := StratumClient.subscribe c graffiti in
  let smt := StratumClient.submit c miningRequestId randomness graffiti in
  let subscribeMessage :=
    {| StratumClient.id := StratumClient.nextMessageId c;
       StratumClient.method := "mining.subscribe";
       StratumClient.params := JSON.JString (Buffer.toString_hex graffiti) |} in
  let submitMessage :=
    {| StratumClient.id := StratumClient.nextMessageId c;
       StratumClient.method := "mining.submit";
       StratumClient.params :=
         JSON.JArray [JSON.JNumber miningRequestId; JSON.JNumber randomness;
                      JSON.JString (Buffer.toString_hex graffiti)] |} in
  StratumClient.nextMessageId (fst sub) = StratumClient.nextMessageId c + 1
  /\ StratumClient.nextMessageId (fst smt) = StratumClient.nextMessageId c + 1
  /\ (if StratumClient.connected c
      then snd sub = [StratumClient.SocketWrite subscribeMessage]
           /\ snd smt = [StratumClient.SocketWrite submitMessage]
           /\ StratumClient.requestsSent (fst sub)
              = <[StratumClient.nextMessageId c := "mining.subscribe"%string]>
                  (StratumClient.requestsSent c)
           /\ StratumClient.requestsSent (fst smt)
              = <[StratumClient.nextMessageId c := "mining.submit"%string]>
                  (StratumClient.requestsSent c)
      else snd sub = [] /\ snd smt = []
           /\ StratumClient.requestsSent (fst sub) = StratumClient.requestsSent c
           /\ StratumClient.requestsSent (fst smt) = StratumClient.requestsSent c).
Proof.
  unfold StratumClient.subscribe, StratumClient.submit, StratumClient.send.
  cbn. destruct (StratumClient.connected c); cbn; repeat split.
Qed.

(** X19. In every state the session reaches from its construction, no id
    from [nextMessageId] on is in [requestsSent]: a request never takes the
    id of an earlier one, and its entry overwrites none. *)
Theorem client_message_ids_fresh
    (host : string) (port : Z) (graffiti : Buffer.t) (c : StratumClient.t) (k : Z) :
  rtc StratumClient.step (StratumClient.constructor host port graffiti) c ->
  StratumClient.nextMessageId c <= k ->
  StratumClient.requestsSent c !! k = None.
Proof.
  intros Hreach Hk.
  assert (Hinit : StratumClient.idsBelowNext
                    (StratumClient.constructor host port graffiti)).
  { intros i [x Hi]. cbn in Hi. by rewrite lookup_empty in Hi. }
  destruct (steps_keep_requests _ _ Hreach Hinit) as [_ Hinv].
  destruct (StratumClient.requestsSent c !! k) eqn:E; [|reflexivity].
  specialize (Hinv k (mk_is_Some _ _ E)). lia.
Qed.

Lemma set_graffiti_same (c : StratumClient.t) :
  StratumClient.set_graffiti c (StratumClient.graffiti c) = c.
Proof. by destruct c. Qed.

Lemma onPayload_frame (c : StratumClient.t) (payload : JSON.t) :
  let r := StratumClient.onPayload c payload in
  fst (fst r) = StratumClient.set_graffiti c (StratumClient.graffiti (fst (fst r)))
  /\ StratumClient.count StratumClient.touchesConnection (snd (fst r)) = 0%nat.
Proof.
  unfold StratumClient.onPayload.
  repeat case_match; cbn; split;
    try reflexivity; symmetry; apply set_graffiti_same.
Qed.

Lemma onLines_frame (lines : list (list Z)) (c : StratumClient.t) :
  let r := StratumClient.onLines c lines in
  fst (fst r) = StratumClient.set_graffiti c (StratumClient.graffiti (fst (fst r)))
  /\ StratumClient.count StratumClient.touchesConnection (snd (fst r)) = 0%nat.
Proof.
  revert c. induction lines as [|line lines IH]; intros c; cbn zeta.
  - cbn. split; [symmetry; apply set_graffiti_same|reflexivity].
  - cbn [StratumClient.onLines].
    destruct (JSON_parse line) as [payload|];
      [|cbn; split; [symmetry; apply set_graffiti_same|reflexivity]].
    pose proof (onPayload_frame c payload) as [Hc He]. cbn zeta in Hc, He.
    destruct (StratumClient.onPayload c payload) as [[c1 e1] [| |err]];
      cbn [fst snd] in Hc, He |- *; try (split; assumption).
    specialize (IH c1) as [IHc IHe]. cbn zeta in IHc, IHe.
    destruct (StratumClient.onLines c1 lines) as [[c2 e2] k].
    cbn [fst snd] in IHc, IHe |- *. split.
    + rewrite IHc. rewrite Hc. reflexivity.
    + rewrite client_count_app. lia.
Qed.

(** X20. Handling a chunk changes nothing of the session but, possibly,
    its graffiti, and does nothing to the socket or the timers: no write,
    no connect, no end, no listener, no timeout, whatever the chunk holds
    and however handling it ends. *)
Theorem onData_frame (c : StratumClient.t) (data : Buffer.t) :
  let r := StratumClient.onData c data in
  fst (fst r) = StratumClient.set_graffiti c (StratumClient.graffiti (fst (fst r)))
  /\ StratumClient.count StratumClient.touchesConnection (snd (fst r)) = 0%nat.
Proof.
  cbn zeta. rewrite onData_onLines. cbn [fst snd]. apply onLines_frame.
Qed.

(** X21. The response to a subscribe request makes the graffiti it
    carries that of the session and passes it to the miner; the next time
    the session connects it subscribes with that graffiti, under an id not
    used before. *)
Theorem subscribed_graffiti_is_resent
    (c : StratumClient.t) (n : Z) (g : Buffer.t) :
  StratumClient.started c = true ->
  StratumClient.requestsSent c !! n = Some "mining.subscribe"%string ->
  let response :=
    JSON.JObject [("id"%string, JSON.JNumber n);
                  ("result"%string, JSON.JString (Buffer.toString_hex g))] in
  let r := StratumClient.onPayload c response in
  let c1 := fst (fst r) in
  r = (StratumClient.set_graffiti c g, [StratumClient.MinerSetGraffiti g],
       StratumClient.Next)
  /\ List.filter StratumClient.isWrite
       (snd (StratumClient.startConnecting_resume
               (fst (StratumClient.onDisconnect c1)) true))
     = [StratumClient.SocketWrite
          {| StratumClient.id := StratumClient.nextMessageId c;
             StratumClient.method := "mining.subscribe";
             StratumClient.params := JSON.JString (Buffer.toString_hex g) |}].
Proof.
  intros Hs Hn response r c1. subst c1 r response.
  unfold StratumClient.onPayload. cbn. rewrite Hn. cbn.
  rewrite from_hex_toString_hex. split; [reflexivity|].
  unfold StratumClient.startConnecting_resume, StratumClient.onConnect,
    StratumClient.subscribe, StratumClient.send. cbn. rewrite Hs. reflexivity.
Qed.

(** X22. A chunk that holds nothing but white space is split into one empty
    line, which is given to [JSON.parse]: as that throws on the empty
    string, [onData] ends with the [SyntaxError], the session unchanged. *)
Theorem onData_blank_chunk_throws (c : StratumClient.t) (data : Buffer.t) :
  StratumClient.trim (Buffer.toString data) = [] ->
  JSON_parse [] = None ->
  StratumClient.onData c data = (c, [], Throw "SyntaxError").
Proof.
  intros Ht Hp. unfold StratumClient.onData. rewrite Ht. cbn. rewrite Hp.
  reflexivity.
Qed.

(** X23. [start()] does nothing the second time: one call of [start()]
    makes one connect attempt and a further call makes none. *)
Theorem client_start_idempotent (c : StratumClient.t) :
  StratumClient.start (fst (StratumClient.start c))
  = (fst (StratumClient.start c), [])
  /\ StratumClient.started (fst (StratumClient.start c)) = true
  /\ StratumClient.count StratumClient.isConnectAttempt
       (snd (StratumClient.start c))
     = (if StratumClient.started c then 0 else 1)%nat.
Proof.
  unfold StratumClient.start.
  destruct (StratumClient.started c) eqn:E; cbn; rewrite ?E; repeat split.
Qed.

End ClientExtras.

Lemma client_started_is_permanent_witness :
  let c := fst (StratumClient.start Sample.client) in
  let c' := fst (StratumClient.stop
                   (fst (StratumClient.startConnecting_resume c false))) in
  StratumClient.started c' = true
  /\ StratumClient.count StratumClient.isTimer
       (snd (StratumClient.startConnecting_resume c' false)) = 1%nat.
Proof.
  intros c c'.
  destruct (@client_started_is_permanent Sample.platform c c') as (Hs & Ht & _).
  - eapply rtc_l; [apply (StratumClient.step_connect _ false)|].
    eapply rtc_l; [apply StratumClient.step_stop|]. apply rtc_refl.
  - reflexivity.
  - split; [exact Hs|exact Ht].
Defined.

Lemma sample_client_reached :
  rtc (@StratumClient.step Sample.platform)
    (StratumClient.constructor "pool.example" 9034 Sample.miner)
    Sample.connectedClient.
Proof.
  eapply rtc_l; [apply StratumClient.step_start|].
  eapply rtc_l; [apply (StratumClient.step_connect _ true)|].
  apply rtc_refl.
Defined.

Lemma client_message_ids_fresh_witness :
  StratumClient.nextMessageId Sample.connectedClient = 1
  /\ StratumClient.requestsSent Sample.connectedClient !! 1 = None.
Proof.
  split; [reflexivity|].
  apply (@client_message_ids_fresh Sample.platform "pool.example" 9034
           Sample.miner Sample.connectedClient 1 sample_client_reached).
  vm_compute. discriminate.
Defined.

Lemma subscribed_graffiti_is_resent_witness :
  let response :=
    JSON.JObject [("id"%string, JSON.JNumber 0);
                  ("result"%string, JSON.JString "beef")] in
  @StratumClient.onPayload Sample.platform Sample.connectedClient response
  = (StratumClient.set_graffiti Sample.connectedClient [xbe; xef],
     [StratumClient.MinerSetGraffiti [xbe; xef]], StratumClient.Next).
Proof.
  exact (proj1 (@subscribed_graffiti_is_resent Sample.platform
                  Sample.connectedClient 0 [xbe; xef]
                  ltac:(reflexivity) ltac:(vm_compute; reflexivity))).
Defined.

Lemma onData_blank_chunk_throws_witness :
  @StratumClient.onData Sample.platform Sample.connectedClient
    (Sample.chunk [""%string; ""%string])
  = (Sample.connectedClient, [], Throw "SyntaxError").
Proof.
  apply (@onData_blank_chunk_throws Sample.platform); vm_compute; reflexivity.
Defined.

(** * Properties of the client of the web API *)

Lemma slice_endsWith (s : string) (c : ascii) :
  WebApi.endsWith s c = true ->
  (WebApi.slice_0_m1 s ++ String c EmptyString)%string = s.
Proof.
  induction s as [|a s IH]; [discriminate|].
  destruct s as [|b s].
  - cbn. intros Ha. apply Ascii.eqb_eq in Ha. by subst.
  - intros Hs. change (WebApi.endsWith (String b s) c = true) in Hs.
    change (String a (WebApi.slice_0_m1 (String b s) ++ String c "")%string
            = String a (String b s)).
    by rewrite (IH Hs).
Qed.

(** X24. The constructor keeps the host it is given, or the production
    host when it is given none, less one trailing slash if there is one: the
    host given is either the host kept or the host kept followed by a
    slash, so that a path appended after a slash does not double it. *)
Theorem constructor_strips_one_slash (options : option WebApi.Options.t) :
  let given :=
    match options ≫= WebApi.Options.host with
    | Some h => h
    | None => WebApi.defaultHost
    end in
  let w := WebApi.constructor options in
  (if WebApi.endsWith given "/"
   then given = (WebApi.host w ++ "/")%string
   else given = WebApi.host w)
  /\ WebApi.urlOf (WebApi.head_call w)
     = Some (WebApi.host w ++ "/blocks/head")%string
  /\ WebApi.host (WebApi.constructor None)
     = "https://api-production.ironfish.network"%string.
Proof.
  intros given w. subst w. unfold WebApi.constructor. cbn [WebApi.host].
  fold given. split; [|split].
  - destruct (WebApi.endsWith given "/") eqn:E; [|reflexivity].
    symmetry. apply (slice_endsWith given "/" E).
  - reflexivity.
  - reflexivity.
Qed.

Lemma options_authorization (w : WebApi.t) (headers : gmap string string) :
  headers !! "Authorization"%string = None ->
  WebApi.options w headers !! "Authorization"%string
  = Some ("Bearer " ++ WebApi.token w)%string.
Proof.
  intros Hn. unfold WebApi.options.
  rewrite lookup_union_r by exact Hn. apply lookup_singleton_eq.
Qed.

(** X25. The four calls that need a token send nothing to the server when
    the token is empty: they throw before the request is made.  With a
    token, each sends its request with the header [Authorization: Bearer]
    followed by the token.  [head] and [getFunds] send their request
    whatever the token is. *)
Theorem token_required_before_request
    (w : WebApi.t) (blocks : list WebApi.FollowChainStreamResponse) (id : Z)
    (email : option string) (public_key : string) :
  let gated :=
    [WebApi.blocks_call w blocks; WebApi.getNextFaucetTransaction_call w;
     WebApi.startFaucetTransaction_call w id;
     WebApi.completeFaucetTransaction_call w id] in
  (if String.eqb (WebApi.token w) ""
   then Forall (fun c => c = WebApi.Thrown "Token required for endpoint") gated
   else Forall (fun c => exists u h,
                    WebApi.urlOf c = Some u /\ WebApi.headersOf c = Some h
                    /\ h !! "Authorization"%string
                       = Some ("Bearer " ++ WebApi.token w)%string) gated)
  /\ (exists u, WebApi.urlOf (WebApi.head_call w) = Some u)
  /\ (exists u, WebApi.urlOf (WebApi.getFunds_call w email public_key) = Some u).
Proof.
  intros gated. subst gated.
  unfold WebApi.blocks_call, WebApi.getNextFaucetTransaction_call,
    WebApi.startFaucetTransaction_call, WebApi.completeFaucetTransaction_call,
    WebApi.requireToken.
  split; [|split; eexists; reflexivity].
  destruct (String.eqb (WebApi.token w) "").
  - repeat constructor.
  - repeat constructor; do 2 eexists;
      (split; [reflexivity|]); (split; [reflexivity|]);
      apply options_authorization; reflexivity.
Qed.

(** X26. [options] keeps every header it is given and adds the
    authorization header when it is given none; an authorization header
    given by the caller takes the place of the token. *)
Theorem options_caller_headers_win
    (w : WebApi.t) (headers : gmap string string) (k : string) :
  WebApi.options w headers !! k
  = match headers !! k with
    | Some v => Some v
    | None =>
        if String.eqb k "Authorization"
        then Some ("Bearer " ++ WebApi.token w)%string
        else None
    end.
Proof.
  unfold WebApi.options. rewrite lookup_union.
  destruct (headers !! k) as [v|] eqn:E.
  - by destruct ({[_ := _]} !! k).
  - destruct (String.eqb k "Authorization") eqn:Ek.
    + apply String.eqb_eq in Ek. subst k. by rewrite lookup_singleton_eq.
    + apply String.eqb_neq in Ek. by rewrite lookup_singleton_ne.
Qed.
